(** * File ingestion and answer synthesis: the [askWithFiles] controller

    A shallow embedding of the upload controller (PDF / DOCX / XLSX / text /
    image dispatch, the OCR fallback chain, context aggregation and the call
    to the answering service) together with the properties its
    specification states about it.

    Conventions of the embedding.
    - A JavaScript string is the list of its UTF-16 code units ([jsstring]);
      [length], [slice] and [trim] therefore count what JavaScript counts.
    - A [Buffer] is a list of bytes; a property that may be [undefined]
      is an [option].
    - Third-party libraries and network services (pdf-parse, mammoth, xlsx,
      OCR.Space, tesseract.js, the Gemini endpoint) and [process.env] are
      fields of an environment record [Env]; every call to one of them is
      recorded in a trace of [Event]s.
    - A JavaScript exception is the [Throw] outcome of the monad [M],
      carrying [err.message]; [try]/[catch] is [tryCatch].
    - [console.log] output is not modelled. *)

From Stdlib Require Import List Arith NArith Bool String Ascii Lia.
From Stdlib Require Import Strings.Byte.
From Stdlib Require Import DecimalString.
Import ListNotations.
Open Scope N_scope.
Open Scope list_scope.

(* ------------------------------------------------------------------ *)
(** ** JavaScript strings *)

Definition jsstring := list N.

(** An ASCII literal as a JavaScript string. *)
Definition js (s : string) : jsstring :=
  map N_of_ascii (list_ascii_of_string s).

Definition nl : jsstring := [10].

(** [Array.prototype.join]. *)
Fixpoint join (sep : jsstring) (l : list jsstring) : jsstring :=
  match l with
  | [] => []
  | [x] => x
  | x :: rest => x ++ sep ++ join sep rest
  end.

Fixpoint jseqb (a b : jsstring) : bool :=
  match a, b with
  | [], [] => true
  | x :: a', y :: b' => (x =? y) && jseqb a' b'
  | _, _ => false
  end.

(** [String.prototype.startsWith]. *)
Fixpoint startsWith (s pre : jsstring) : bool :=
  match pre, s with
  | [], _ => true
  | p :: pre', c :: s' => (c =? p) && startsWith s' pre'
  | _ :: _, [] => false
  end.

(** [String.prototype.slice(0, n)] for a non-negative [n]. *)
Definition slice0 (n : N) (s : jsstring) : jsstring := firstn (N.to_nat n) s.

(** White space and line terminators, as [String.prototype.trim] strips
    them. *)
Definition isWhite (c : N) : bool :=
  ((9 <=? c) && (c <=? 13)) || (c =? 32) || (c =? 160) || (c =? 5760)
  || ((8192 <=? c) && (c <=? 8202)) || (c =? 8232) || (c =? 8233)
  || (c =? 8239) || (c =? 8287) || (c =? 12288) || (c =? 65279).

Fixpoint trimStart (s : jsstring) : jsstring :=
  match s with
  | c :: s' => if isWhite c then trimStart s' else s
  | [] => []
  end.

Definition trim (s : jsstring) : jsstring :=
  rev (trimStart (rev (trimStart s))).

(** Truthiness of a string value: defined and not empty. *)
Definition truthy (s : option jsstring) : bool :=
  match s with
  | Some (_ :: _) => true
  | _ => false
  end.

(** [a || b] on string values. *)
Definition orElse (a : option jsstring) (b : jsstring) : jsstring :=
  match a with
  | Some (c :: s) => c :: s
  | _ => b
  end.

(** [name.split(".").pop()]: what follows the last dot, the whole string
    when there is none. *)
Fixpoint lastSegment (acc s : jsstring) : jsstring :=
  match s with
  | [] => acc
  | c :: s' => if c =? 46 then lastSegment [] s' else lastSegment (acc ++ [c]) s'
  end.

Definition isAscii (s : jsstring) : bool := forallb (fun c => c <? 128) s.

Definition lowerAscii (c : N) : N :=
  if (65 <=? c) && (c <=? 90) then c + 32 else c.

(** Decimal digits of a natural number, as [String(n)] prints an integer. *)
Fixpoint digits (d : Decimal.uint) : jsstring :=
  match d with
  | Decimal.Nil => []
  | Decimal.D0 r => 48 :: digits r
  | Decimal.D1 r => 49 :: digits r
  | Decimal.D2 r => 50 :: digits r
  | Decimal.D3 r => 51 :: digits r
  | Decimal.D4 r => 52 :: digits r
  | Decimal.D5 r => 53 :: digits r
  | Decimal.D6 r => 54 :: digits r
  | Decimal.D7 r => 55 :: digits r
  | Decimal.D8 r => 56 :: digits r
  | Decimal.D9 r => 57 :: digits r
  end.

Definition showN (n : N) : jsstring := digits (N.to_uint n).

(** [(size / 1024).toFixed(1)].  The quotient by a power of two is exact
    in double precision for every buffer length, so [toFixed] picks the
    integer [n] nearest to [10 * size / 1024], the larger one on a tie,
    and prints it with one digit after the point. *)
Definition kbFixed1 (size : N) : jsstring :=
  let n := (10 * size + 512) / 1024 in
  showN (n / 10) ++ js "." ++ showN (n mod 10).

(* ------------------------------------------------------------------ *)
(** ** Buffers *)

Definition Buffer := list byte.

Definition bytesOf (s : string) : Buffer := list_byte_of_string s.

(** *** [Buffer.prototype.toString("utf8")]

    The decoder replaces every maximal ill-formed subsequence by U+FFFD
    and does not strip a byte-order mark. *)
Record Utf8State := mkUtf8 {
  needed : N;   (* continuation bytes still expected *)
  cp : N;       (* code point under construction *)
  lower : N;    (* admissible range of the next continuation byte *)
  upper : N
}.

Definition utf8Init : Utf8State := mkUtf8 0 0 128 191.

(** UTF-16 code units of a code point. *)
Definition utf16 (c : N) : jsstring :=
  if c <? 65536 then [c]
  else [55296 + (c - 65536) / 1024; 56320 + (c - 65536) mod 1024].

(** A byte met while no sequence is open. *)
Definition utf8Lead (b : N) : jsstring * Utf8State :=
  if b <? 128 then ([b], utf8Init)
  else if (194 <=? b) && (b <=? 223) then ([], mkUtf8 1 (b - 192) 128 191)
  else if (224 <=? b) && (b <=? 239) then
    ([], mkUtf8 2 (b - 224) (if b =? 224 then 160 else 128)
                              (if b =? 237 then 159 else 191))
  else if (240 <=? b) && (b <=? 244) then
    ([], mkUtf8 3 (b - 240) (if b =? 240 then 144 else 128)
                              (if b =? 244 then 143 else 191))
  else ([65533], utf8Init).

Definition utf8Step (st : Utf8State) (b : N) : jsstring * Utf8State :=
  if needed st =? 0 then utf8Lead b
  else if (lower st <=? b) && (b <=? upper st) then
    let c := cp st * 64 + (b - 128) in
    if needed st =? 1 then (utf16 c, utf8Init)
    else ([], mkUtf8 (needed st - 1) c 128 191)
  else
    (* the open sequence is ill-formed; the byte is read again *)
    let '(out, st') := utf8Lead b in (65533 :: out, st').

Fixpoint utf8Go (st : Utf8State) (bs : Buffer) : jsstring :=
  match bs with
  | [] => if needed st =? 0 then [] else [65533]
  | b :: rest =>
      let '(out, st') := utf8Step st (Byte.to_N b) in out ++ utf8Go st' rest
  end.

Definition toStringUtf8 (b : Buffer) : jsstring := utf8Go utf8Init b.

(** *** [Buffer.prototype.toString("base64")] *)
Definition b64char (n : N) : N :=
  if n <? 26 then 65 + n
  else if n <? 52 then 97 + (n - 26)
  else if n <? 62 then 48 + (n - 52)
  else if n =? 62 then 43 else 47.

Fixpoint base64 (bs : list N) : jsstring :=
  match bs with
  | [] => []
  | [a] => [b64char (a / 4); b64char ((a mod 4) * 16); 61; 61]
  | [a; b] =>
      [b64char (a / 4); b64char ((a mod 4) * 16 + b / 16);
       b64char ((b mod 16) * 4); 61]
  | a :: b :: c :: rest =>
      [b64char (a / 4); b64char ((a mod 4) * 16 + b / 16);
       b64char ((b mod 16) * 4 + c / 64); b64char (c mod 64)]
      ++ base64 rest
  end.

Definition toStringBase64 (b : Buffer) : jsstring :=
  base64 (map Byte.to_N b).

(* ------------------------------------------------------------------ *)
(** ** Data exchanged with libraries and services *)

(** What [pdfParse] resolves to. *)
Module PdfData.
Record t := mk { text : option jsstring; numpages : option N }.
End PdfData.

(** What [extractTextFromPdf] returns. *)
Module PdfResult.
Record t := mk {
  text : jsstring;
  isScanned : bool;
  pages : N;
  info : option jsstring
}.
End PdfResult.

(** The JSON body of an OCR.Space reply:
    [{ ParsedResults: [{ParsedText}], ErrorMessage? }].  An entry of the
    array may be [null]; [ErrorMessage] is only logged. *)
Module OcrData.
Record ParsedResult := mkResult { ParsedText : option jsstring }.
Record t := mk { ParsedResults : option (list (option ParsedResult)) }.
End OcrData.

(** How the request to the hosted OCR service ends. *)
Inductive HostedReply :=
| TransportError (message : jsstring)      (* [fetch] rejects *)
| MalformedBody (message : jsstring)       (* [res.json()] rejects *)
| Parsed (data : option OcrData.t).        (* a JSON value, possibly [null] *)

(** A part of the request sent to the answering service. *)
Inductive GeminiPart :=
| TextPart (text : jsstring)
| InlineData (mimeType data : jsstring).

(** The body of the answering service's reply:
    [{ candidates: [{ content: { parts: [{text}] } }] }]; every level
    may be missing. *)
Module GeminiData.
Record part := mkPart { text : option jsstring }.
Record content := mkContent { parts : option (list (option part)) }.
Record candidate := mkCandidate { content_ : option content }.
Record t := mk { candidates : option (list (option candidate)) }.
End GeminiData.

(* ------------------------------------------------------------------ *)
(** ** Exceptions and the trace of external calls *)

Inductive Exc (A : Type) :=
| Ret (a : A)
| Throw (message : jsstring).
Arguments Ret {A} a.
Arguments Throw {A} message.

Inductive Event :=
| CallPdfParse (b : Buffer)
| CallMammoth (b : option Buffer)
| CallXlsx (b : option Buffer)
| CallOcrSpace (apikey : jsstring) (b : Buffer) (filename : jsstring)
| CallTesseract (b : Buffer)
| CallGemini (endpoint : jsstring) (parts : list GeminiPart).

Definition M (A : Type) : Type := list Event * Exc A.

Definition ret {A} (a : A) : M A := ([], Ret a).

Definition throw {A} (message : jsstring) : M A := ([], Throw message).

Definition bind {A B} (m : M A) (k : A -> M B) : M B :=
  match m with
  | (t, Ret a) => let '(t', r) := k a in (t ++ t', r)
  | (t, Throw e) => (t, Throw e)
  end.

(** [try { m } catch (err) { h err.message }]. *)
Definition tryCatch {A} (m : M A) (h : jsstring -> M A) : M A :=
  match m with
  | (t, Ret a) => (t, Ret a)
  | (t, Throw e) => let '(t', r) := h e in (t ++ t', r)
  end.

(** A call to a library or service: the event is recorded, the outcome is
    the callee's. *)
Definition call {A} (e : Event) (outcome : Exc A) : M A := ([e], outcome).

(** A computation that cannot raise. *)
Definition total {A} (c : list Event * A) : M A := (fst c, Ret (snd c)).

Notation "x <- m ;; k" := (bind m (fun x => k))
  (at level 61, m at next level, right associativity).
Notation "' pat <- m ;; k" := (bind m (fun x => match x with pat => k end))
  (at level 61, pat pattern, m at next level, right associativity).

Fixpoint mapM {A B} (f : A -> M B) (l : list A) : M (list B) :=
  match l with
  | [] => ret []
  | a :: l' => b <- f a ;; bs <- mapM f l' ;; ret (b :: bs)
  end.

(* ------------------------------------------------------------------ *)
(** ** The environment *)

Record Env := mkEnv {
  (* process.env *)
  OCR_SPACE_API_KEY : option jsstring;
  GEMINI_API_KEY : option jsstring;
  GEMINI_MODEL : option jsstring;
  (* require("pdf-parse") *)
  pdfParse : Buffer -> Exc (option PdfData.t);
  (* mammoth.extractRawText({ buffer }), the [value] of its result *)
  mammothExtractRawText : option Buffer -> Exc (option jsstring);
  (* XLSX.read(buffer) followed by XLSX.utils.sheet_to_csv on every sheet
     of workbook.SheetNames, in that order *)
  xlsxSheetsToCsv : option Buffer -> Exc (list jsstring);
  (* fetch("https://api.ocr.space/parse/image", ...) and res.json() *)
  fetchOcrSpace : jsstring -> Buffer -> jsstring -> HostedReply;
  (* Tesseract.recognize(buffer, "eng"), the [data.text] of its result *)
  tesseractRecognize : Buffer -> Exc (option jsstring);
  (* axios.post(endpoint, body, headers), the [data] of its result *)
  axiosPost : jsstring -> list GeminiPart -> Exc (option GeminiData.t);
  (* String.prototype.toLowerCase on a string that is not pure ASCII
     (the Unicode case tables) *)
  unicodeLower : jsstring -> jsstring
}.

Definition toLowerCase (env : Env) (s : jsstring) : jsstring :=
  if isAscii s then map lowerAscii s else unicodeLower env s.

(* ------------------------------------------------------------------ *)
(** ** [extractTextFromPdf] *)

Definition pdfSignature : jsstring := js "%PDF".

Definition scannedInfo : jsstring :=
  js "This appears to be a scanned PDF or image-based PDF. No text could be extracted automatically. Consider uploading as images instead for better analysis.".

(** [data?.text?.length || 0]. *)
Definition extractedLength (data : option PdfData.t) : N :=
  match data with
  | Some d => match PdfData.text d with
              | Some t => N.of_nat (List.length t)
              | None => 0
              end
  | None => 0
  end.

(** [data?.numpages || 0]. *)
Definition numpagesOf (data : option PdfData.t) : N :=
  match data with
  | Some d => match PdfData.numpages d with
              | Some n => n
              | None => 0
              end
  | None => 0
  end.

(** [data.text], read once [extractedLength] is known not to be zero. *)
Definition textOf (data : option PdfData.t) : jsstring :=
  match data with
  | Some d => match PdfData.text d with
              | Some t => t
              | None => []
              end
  | None => []
  end.

Definition extractTextFromPdf (env : Env) (buffer : option Buffer)
  : M PdfResult.t :=
  tryCatch
    (match buffer with
     | None | Some [] => throw (js "Empty or invalid buffer")
     | Some b =>
         let header := toStringUtf8 (firstn 4 b) in
         if negb (startsWith header pdfSignature) then
           throw (js "File does not appear to be a valid PDF (missing %PDF header)")
         else
           data <- call (CallPdfParse b) (pdfParse env b) ;;
           if extractedLength data =? 0 then
             ret (PdfResult.mk [] true (numpagesOf data) (Some scannedInfo))
           else
             ret (PdfResult.mk (textOf data) false (numpagesOf data) None)
     end)
    (fun message => throw (js "PDF parsing failed: " ++ message)).

(* ------------------------------------------------------------------ *)
(** ** The OCR chain: [tesseractOcr] and [extractText] *)

Definition tesseractOcr (env : Env) (buffer : Buffer) : M jsstring :=
  tryCatch
    (text <- call (CallTesseract buffer) (tesseractRecognize env buffer) ;;
     ret (orElse text []))
    (fun _ => ret []).

(** [p.ParsedText] for an entry of [ParsedResults]; reading it from [null]
    raises. *)
Definition parsedText (p : option OcrData.ParsedResult) : M (option jsstring) :=
  match p with
  | Some r => ret (OcrData.ParsedText r)
  | None => throw (js "Cannot read properties of null (reading 'ParsedText')")
  end.

(** [join] prints [undefined] and [null] as the empty string. *)
Definition joinOpt (sep : jsstring) (l : list (option jsstring)) : jsstring :=
  join sep (map (fun o => match o with Some s => s | None => [] end) l).

Definition nonBlank (s : jsstring) : bool :=
  match s with
  | [] => false
  | _ => negb (Nat.eqb (List.length (trim s)) 0)
  end.

(** The text the hosted service found, if any. *)
Definition hostedText (data : option OcrData.t) : M (option jsstring) :=
  match data with
  | Some d =>
      match OcrData.ParsedResults d with
      | Some ((Some _ :: _) as results) =>
          texts <- mapM parsedText results ;;
          let text := joinOpt nl texts in
          if nonBlank text then ret (Some text) else ret None
      | _ => ret None
      end
  | None => ret None
  end.

Definition hostedOutcome (r : HostedReply) : Exc (option OcrData.t) :=
  match r with
  | TransportError message => Throw message
  | MalformedBody message => Throw message
  | Parsed data => Ret data
  end.

Definition extractText (env : Env) (buffer : Buffer) (filename : jsstring)
  : M jsstring :=
  match OCR_SPACE_API_KEY env with
  | Some ((_ :: _) as apiKey) =>
      tryCatch
        (data <- call (CallOcrSpace apiKey buffer filename)
                      (hostedOutcome (fetchOcrSpace env apiKey buffer filename)) ;;
         found <- hostedText data ;;
         match found with
         | Some text => ret text
         | None => tesseractOcr env buffer
         end)
        (fun _ => tesseractOcr env buffer)
  | _ => tesseractOcr env buffer
  end.

(* ------------------------------------------------------------------ *)
(** ** The request and the response of [askWithFiles] *)

(** An entry of [req.files]. *)
Module UploadedFile.
Record t := mk {
  originalname : option jsstring;
  filename : option jsstring;
  buffer : option Buffer
}.
End UploadedFile.

(** The request, as the authentication middleware and the multipart
    parser hand it over ([req.user] and [req.body] are objects):
    [req.files] and [req.body.question]. *)
Module Request.
Record t := mk {
  files : option (list UploadedFile.t);
  question : option jsstring
}.
End Request.

(** An element of the local array [parts]. *)
Module Part.
Record t := mk {
  name : jsstring;
  ext : jsstring;
  text : jsstring;
  size : N;
  error : option jsstring
}.
End Part.

(** An element of the local array [imageParts]. *)
Module ImagePart.
Record t := mk { name : jsstring; mimeType : jsstring; data : jsstring }.
End ImagePart.

(** An element of [response.files]. *)
Module FileEntry.
Record t := mk {
  name : jsstring;
  type : jsstring;
  size : N;
  textLength : N;
  error : option jsstring     (* [None] is [null] *)
}.
End FileEntry.

Module Response.
Record t := mk {
  extracted : jsstring;
  answer : option jsstring;   (* [None] is [null] *)
  files : list FileEntry.t;
  error : option jsstring     (* [None]: the property is absent *)
}.
End Response.

Inductive Reply :=
| Status400 (error : jsstring)
| Json200 (response : Response.t)
| Status500 (error details : jsstring).

(* ------------------------------------------------------------------ *)
(** ** The per-file loop *)

Definition fileName (f : UploadedFile.t) : jsstring :=
  orElse (UploadedFile.originalname f)
         (orElse (UploadedFile.filename f) (js "file")).

Definition fileExt (env : Env) (f : UploadedFile.t) : jsstring :=
  toLowerCase env (lastSegment [] (fileName f)).

Definition fileSize (f : UploadedFile.t) : N :=
  match UploadedFile.buffer f with
  | Some b => N.of_nat (List.length b)
  | None => 0
  end.

Definition imageExts : list jsstring :=
  map js ["jpg"; "jpeg"; "png"; "webp"; "tif"; "tiff"; "bmp"; "gif"]%string.

Definition isImageExt (ext : jsstring) : bool := existsb (jseqb ext) imageExts.

Definition mimeTypes : list (jsstring * jsstring) :=
  [ (js "jpg", js "image/jpeg"); (js "jpeg", js "image/jpeg");
    (js "png", js "image/png"); (js "webp", js "image/webp");
    (js "gif", js "image/gif"); (js "tif", js "image/tiff");
    (js "tiff", js "image/tiff"); (js "bmp", js "image/bmp") ].

Fixpoint lookup (k : jsstring) (tbl : list (jsstring * jsstring))
  : option jsstring :=
  match tbl with
  | [] => None
  | (k', v) :: tbl' => if jseqb k k' then Some v else lookup k tbl'
  end.

Definition imageMarker (name : jsstring) : jsstring :=
  js "[Image: " ++ name ++ js " - will be analyzed by AI vision]".

(** The body of the [try] block for one file.  It yields the final values
    of [text] and [extractionError] and the array [imageParts]. *)
Definition extractFile (env : Env) (f : UploadedFile.t) (name ext : jsstring)
    (imageParts : list ImagePart.t)
  : M (jsstring * option jsstring * list ImagePart.t) :=
  if jseqb ext (js "pdf") then
    pdfResult <- extractTextFromPdf env (UploadedFile.buffer f) ;;
    if PdfResult.isScanned pdfResult then
      ret (PdfResult.text pdfResult, PdfResult.info pdfResult, imageParts)
    else
      ret (PdfResult.text pdfResult, None, imageParts)
  else if jseqb ext (js "docx") then
    value <- call (CallMammoth (UploadedFile.buffer f))
                  (mammothExtractRawText env (UploadedFile.buffer f)) ;;
    ret (orElse value [], None, imageParts)
  else if jseqb ext (js "xlsx") then
    sheets <- call (CallXlsx (UploadedFile.buffer f))
                   (xlsxSheetsToCsv env (UploadedFile.buffer f)) ;;
    ret (join nl sheets, None, imageParts)
  else if jseqb ext (js "txt") || jseqb ext (js "html") then
    match UploadedFile.buffer f with
    | None | Some [] => throw (js "Empty or invalid buffer for text file")
    | Some b => ret (toStringUtf8 b, None, imageParts)
    end
  else if isImageExt ext then
    match UploadedFile.buffer f with
    | None =>
        throw (js "Cannot read properties of undefined (reading 'toString')")
    | Some b =>
        let img := ImagePart.mk name
                     (orElse (lookup ext mimeTypes) (js "image/jpeg"))
                     (toStringBase64 b) in
        ret (imageMarker name, None, imageParts ++ [img])
    end
  else
    ret ([], None, imageParts).

(** One iteration of [for (const f of files)]: the [try]/[catch] around
    [extractFile], then the record pushed to [parts]. *)
Definition fileStep (env : Env) (f : UploadedFile.t)
    (imageParts : list ImagePart.t)
  : list Event * (Part.t * list ImagePart.t) :=
  let name := fileName f in
  let ext := fileExt env f in
  let size := fileSize f in
  let '(trace, outcome) := extractFile env f name ext imageParts in
  let '(text, extractionError, imageParts') :=
    match outcome with
    | Ret r => r
    | Throw message => ([], Some message, imageParts)
    end in
  (trace, (Part.mk name ext text size extractionError, imageParts')).

Fixpoint forFiles (env : Env) (files : list UploadedFile.t)
    (parts : list Part.t) (imageParts : list ImagePart.t)
  : list Event * (list Part.t * list ImagePart.t) :=
  match files with
  | [] => ([], (parts, imageParts))
  | f :: rest =>
      let '(t, (p, imageParts')) := fileStep env f imageParts in
      let '(t', r) := forFiles env rest (parts ++ [p]) imageParts' in
      (t ++ t', r)
  end.

(* ------------------------------------------------------------------ *)
(** ** Aggregation *)

(** The filter [p.text && p.text.trim().length > 0]. *)
Definition retained (p : Part.t) : bool := nonBlank (Part.text p).

(** The block one retained record contributes. *)
Definition segment (p : Part.t) : jsstring :=
  js "--- " ++ Part.name p ++ js " (" ++ Part.ext p ++ js ") ---" ++ nl
  ++ slice0 20000 (Part.text p).

Definition combinedOf (parts : list Part.t) : jsstring :=
  join (nl ++ nl) (map segment (filter retained parts)).

Definition orNull (e : option jsstring) : option jsstring :=
  if truthy e then e else None.

Definition fileEntry (p : Part.t) : FileEntry.t :=
  FileEntry.mk (Part.name p) (Part.ext p) (Part.size p)
               (N.of_nat (List.length (Part.text p)))
               (orNull (Part.error p)).

(** The object [response] as it is first built. *)
Definition responseOf (parts : list Part.t) : Response.t :=
  Response.mk (combinedOf parts) None (map fileEntry parts) None.

(* ------------------------------------------------------------------ *)
(** ** The answer *)

(** [`${p.name}: ${p.error || "Unknown error"}`], joined with ["; "]. *)
Definition errorDetails (parts : list Part.t) : jsstring :=
  join (js "; ")
       (map (fun p => Part.name p ++ js ": "
                      ++ orElse (Part.error p) (js "Unknown error")) parts).

(** A line of the file analysis.  The template reads [p.type], a property
    the records of [parts] do not have (they keep the extension as [ext]),
    so the template prints [undefined] in its place. *)
Definition analysisLine (p : Part.t) : jsstring :=
  [8226] ++ js " " ++ Part.name p ++ js " (" ++ js "undefined" ++ js ", "
  ++ kbFixed1 (Part.size p) ++ js "KB): "
  ++ orElse (Part.error p) (js "No text found").

Definition diagnosticIntro : jsstring :=
  js "I couldn't extract any readable content from the uploaded files. This might be because:"
  ++ nl ++ nl
  ++ js "1. **Scanned PDF**: The PDF contains images/scans rather than selectable text" ++ nl
  ++ js "2. **Encrypted PDF**: The PDF is password protected or encrypted" ++ nl
  ++ js "3. **Corrupted file**: The file may be damaged" ++ nl
  ++ js "4. **Unsupported format**: The file format isn't supported for text extraction"
  ++ nl ++ nl
  ++ js "File analysis:" ++ nl.

Definition diagnosticOutro : jsstring :=
  nl ++ nl
  ++ js "For scanned PDFs, you might need to use OCR (Optical Character Recognition) tools to extract the text first.".

Definition diagnosticAnswer (parts : list Part.t) : jsstring :=
  diagnosticIntro ++ join nl (map analysisLine parts) ++ diagnosticOutro.

Definition noContentResponse (parts : list Part.t) : Response.t :=
  Response.mk (combinedOf parts)
    (Some (diagnosticAnswer parts))
    (map fileEntry parts)
    (Some (js "No content could be extracted from the uploaded files. Details: "
           ++ errorDetails parts)).

Inductive PromptMode := ImageOnly | Mixed | TextOnly | NoFraming.

(** The branch of the prompt construction that is taken. *)
Definition promptMode (combined : jsstring) (imageParts : list ImagePart.t)
  : PromptMode :=
  let images := negb (Nat.eqb (List.length imageParts) 0) in
  let text := truthy (Some (trim combined)) in
  if images && negb text then ImageOnly
  else if images && text then Mixed
  else if text then TextOnly
  else NoFraming.

Definition promptText (combined : jsstring) (imageParts : list ImagePart.t)
    (question : jsstring) : jsstring :=
  let count := showN (N.of_nat (List.length imageParts)) in
  (match promptMode combined imageParts with
   | ImageOnly =>
       js "I have uploaded " ++ count
       ++ js " image(s) for analysis. Please examine them carefully and answer my question."
       ++ nl ++ nl
   | Mixed =>
       js "I have uploaded files with both text and images:" ++ nl ++ nl
       ++ combined ++ nl ++ nl
       ++ js "I have also uploaded " ++ count
       ++ js " image(s). Please analyze everything carefully." ++ nl ++ nl
   | TextOnly =>
       js "I have uploaded the following files with extracted text:" ++ nl ++ nl
       ++ combined ++ nl ++ nl
   | NoFraming => []
   end)
  ++ js "Question: " ++ question ++ nl ++ nl
  ++ js "Please provide a detailed and accurate answer based on the uploaded content. For math problems in images, transcribe the problem first, then show step-by-step solutions with proper formatting. For images with diagrams or handwriting, describe what you see before answering.".

(** The [parts] of the request body; [generationConfig] and the headers are
    constants of the source. *)
Definition geminiParts (combined : jsstring) (imageParts : list ImagePart.t)
    (question : jsstring) : list GeminiPart :=
  TextPart (promptText combined imageParts question)
  :: map (fun img => InlineData (ImagePart.mimeType img) (ImagePart.data img))
         imageParts.

Definition endpointOf (env : Env) (geminiKey : jsstring) : jsstring :=
  js "https://generativelanguage.googleapis.com/v1beta/models/"
  ++ orElse (GEMINI_MODEL env) (js "gemini-2.5-flash")
  ++ js ":generateContent?key=" ++ geminiKey.

(** [data?.candidates?.[0]?.content?.parts?.[0]?.text || null]. *)
Definition textResp (data : option GeminiData.t) : option jsstring :=
  match data with
  | Some d =>
      match GeminiData.candidates d with
      | Some (Some c :: _) =>
          match GeminiData.content_ c with
          | Some ct =>
              match GeminiData.parts ct with
              | Some (Some p :: _) => orNull (GeminiData.text p)
              | _ => None
              end
          | None => None
          end
      | _ => None
      end
  | None => None
  end.

Definition withAnswer (r : Response.t) (a : option jsstring) : Response.t :=
  Response.mk (Response.extracted r) a (Response.files r) (Response.error r).

(** The body of the outer [try] block. *)
Definition handler (env : Env) (req : Request.t) : M Reply :=
  let files := match Request.files req with Some l => l | None => [] end in
  let question := orElse (Request.question req) [] in
  match files with
  | [] => ret (Status400 (js "No files uploaded"))
  | _ :: _ =>
      ' (parts, imageParts) <- total (forFiles env files [] []) ;;
      let combined := combinedOf parts in
      let response := responseOf parts in
      match GEMINI_API_KEY env with
      | Some ((_ :: _) as geminiKey) =>
          let hasContent :=
            negb (Nat.eqb (List.length (trim combined)) 0)
            || negb (Nat.eqb (List.length imageParts) 0) in
          if negb hasContent then ret (Json200 (noContentResponse parts))
          else
            let endpoint := endpointOf env geminiKey in
            let body := geminiParts combined imageParts question in
            data <- call (CallGemini endpoint body)
                         (axiosPost env endpoint body) ;;
            ret (Json200 (withAnswer response (textResp data)))
      | _ => ret (Json200 response)
      end
  end.

(** [exports.askWithFiles]: the outer [catch] turns an exception into the
    500 reply. *)
Definition askWithFiles (env : Env) (req : Request.t) : list Event * Reply :=
  match handler env req with
  | (trace, Ret reply) => (trace, reply)
  | (trace, Throw message) =>
      (trace, Status500 (js "Failed to process files") message)
  end.

Definition isGeminiCall (e : Event) : bool :=
  match e with
  | CallGemini _ _ => true
  | _ => false
  end.

(* ------------------------------------------------------------------ *)
(** ** Views of one run of the loop *)

(** The record pushed for a file, the images it adds and the calls it
    makes, read off one iteration started with no image collected. *)
Definition recordOf (env : Env) (f : UploadedFile.t) : Part.t :=
  fst (snd (fileStep env f [])).

Definition pushedBy (env : Env) (f : UploadedFile.t) : list ImagePart.t :=
  snd (snd (fileStep env f [])).

Definition stepTrace (env : Env) (f : UploadedFile.t) : list Event :=
  fst (fileStep env f []).

(** The arrays [parts] and [imageParts] after the loop, and its calls. *)
Definition partsOf (env : Env) (files : list UploadedFile.t) : list Part.t :=
  fst (snd (forFiles env files [] [])).

Definition imagePartsOf (env : Env) (files : list UploadedFile.t)
  : list ImagePart.t :=
  snd (snd (forFiles env files [] [])).

Definition loopTrace (env : Env) (files : list UploadedFile.t) : list Event :=
  fst (forFiles env files [] []).

Definition filesOf (req : Request.t) : list UploadedFile.t :=
  match Request.files req with
  | Some l => l
  | None => []
  end.

(** The test [hasContent] and the parts of the request body, as
    functions of the request. *)
Definition hasContent (env : Env) (files : list UploadedFile.t) : bool :=
  negb (Nat.eqb (List.length (trim (combinedOf (partsOf env files)))) 0)
  || negb (Nat.eqb (List.length (imagePartsOf env files)) 0).

Definition requestBody (env : Env) (req : Request.t) : list GeminiPart :=
  geminiParts (combinedOf (partsOf env (filesOf req)))
              (imagePartsOf env (filesOf req))
              (orElse (Request.question req) []).

(* ------------------------------------------------------------------ *)
(** ** Predicates used in the statements *)

(** The buffer is missing, empty, or does not begin with the four bytes
    of the signature. *)
Definition lacksPdfSignature (buffer : option Buffer) : Prop :=
  match buffer with
  | None => True
  | Some b => b = [] \/ firstn 4 b <> bytesOf "%PDF"
  end.

(** A line of the file analysis, with whatever the template printed in the
    place of the type. *)
Definition enumerates (p : Part.t) (line : jsstring) : Prop :=
  exists shown,
    line = [8226] ++ js " " ++ Part.name p ++ js " (" ++ shown ++ js ", "
           ++ kbFixed1 (Part.size p) ++ js "KB): "
           ++ orElse (Part.error p) (js "No text found").

(** The result of the local engine: its text, the empty string when it
    has none or fails. *)
Definition localText (env : Env) (buffer : Buffer) : jsstring :=
  match tesseractRecognize env buffer with
  | Ret text => orElse text []
  | Throw _ => []
  end.

(** The [ParsedText] of the entries of [ParsedResults]. *)
Definition parsedTexts (results : list (option OcrData.ParsedResult))
  : list (option jsstring) :=
  map (fun r => match r with
                | Some p => OcrData.ParsedText p
                | None => None
                end) results.

(** The replies of the hosted service that give no text: a transport error,
    a body that is not JSON or lacks the result list, an empty result list
    or null entries in it, and results whose joined text is blank. *)
Inductive Unusable : HostedReply -> Prop :=
| unusable_transport message : Unusable (TransportError message)
| unusable_body message : Unusable (MalformedBody message)
| unusable_null : Unusable (Parsed None)
| unusable_no_list : Unusable (Parsed (Some (OcrData.mk None)))
| unusable_empty_list : Unusable (Parsed (Some (OcrData.mk (Some []))))
| unusable_null_entry results :
    In None results ->
    Unusable (Parsed (Some (OcrData.mk (Some results))))
| unusable_blank results :
    nonBlank (joinOpt nl (parsedTexts results)) = false ->
    Unusable (Parsed (Some (OcrData.mk (Some results)))).

(** The decoded text is empty or starts with a unit outside ASCII. *)
Definition High (s : jsstring) : Prop :=
  match s with
  | [] => True
  | c :: _ => 128 <= c
  end.

(** A sequence is open and can only end in a code point outside ASCII. *)
Definition Open (st : Utf8State) : Prop :=
  128 <= lower st
  /\ ((needed st = 1 /\ 256 <= cp st * 64 + lower st)
      \/ (needed st = 2 /\ 130 <= cp st * 64 + lower st)
      \/ (needed st = 3 /\ 129 <= cp st * 64 + lower st)).

(* ------------------------------------------------------------------ *)
(** ** Sample environments and uploads *)

(** No credential at all; every library and service fails. *)
Definition offlineEnv : Env :=
  mkEnv None None None
        (fun _ => Throw (js "bad XRef entry"))
        (fun _ => Throw (js "Can't find end of central directory"))
        (fun _ => Throw (js "Unsupported file"))
        (fun _ _ _ => TransportError (js "getaddrinfo ENOTFOUND api.ocr.space"))
        (fun _ => Throw (js "worker failed"))
        (fun _ _ => Throw (js "Request failed with status code 503"))
        (fun s => s).

(** Both credentials are set; pdf-parse finds three pages and no text, the
    OCR service answers with an empty result list, the local engine reads
    "abc", and the answering service fails. *)
Definition keyedEnv : Env :=
  mkEnv (Some (js "K1234567")) (Some (js "secret")) None
        (fun _ => Ret (Some (PdfData.mk (Some []) (Some 3))))
        (fun _ => Ret (Some []))
        (fun _ => Ret [])
        (fun _ _ _ => Parsed (Some (OcrData.mk (Some []))))
        (fun _ => Ret (Some (js "abc")))
        (fun _ _ => Throw (js "Request failed with status code 503"))
        (fun s => s).

Definition upload (name content : string) : UploadedFile.t :=
  UploadedFile.mk (Some (js name)) None (Some (bytesOf content)).

Definition helloFile : UploadedFile.t := upload "file.txt" "hello world".
Definition blankFile : UploadedFile.t := upload "blank.txt" " ".
Definition scannedPdf : UploadedFile.t := upload "scan.pdf" "%PDF-1.4".
Definition notAPdf : UploadedFile.t := upload "report.pdf" "hello world".
Definition unknownFile : UploadedFile.t := upload "a.xyz" "hello world".
Definition pngFile : UploadedFile.t := upload "pic.png" "hello".
Definition jpgWithoutBuffer : UploadedFile.t :=
  UploadedFile.mk (Some (js "a.jpg")) None None.

Definition helloRequest : Request.t :=
  Request.mk (Some [helloFile]) (Some (js "what does this say?")).

Definition helloResponse : Response.t :=
  Response.mk (js "--- file.txt (txt) ---" ++ nl ++ js "hello world")
              None
              [FileEntry.mk (js "file.txt") (js "txt") 11 11 None]
              None.

(* ------------------------------------------------------------------ *)
(** ** Further views and samples *)

(** The entry carries its bytes. *)
Definition hasBuffer (f : UploadedFile.t) : bool :=
  match UploadedFile.buffer f with
  | Some _ => true
  | None => false
  end.

(** The number of calls to the answering service in a trace. *)
Definition geminiCalls (trace : list Event) : nat :=
  List.length (filter isGeminiCall trace).

(** The image part the loop pushes for an image file with a buffer. *)
Definition imagePartOf (env : Env) (f : UploadedFile.t) (b : Buffer)
  : ImagePart.t :=
  ImagePart.mk (fileName f)
               (orElse (lookup (fileExt env f) mimeTypes) (js "image/jpeg"))
               (toStringBase64 b).

(** The extensions the loop has a branch for that are not images. *)
Definition documentExts : list jsstring :=
  map js ["pdf"; "docx"; "xlsx"; "txt"; "html"]%string.

Definition isDocumentExt (ext : jsstring) : bool :=
  existsb (jseqb ext) documentExts.

(** An upper bound of the length of the block of a record. *)
Definition segmentBudget (p : Part.t) : N :=
  N.of_nat (List.length (Part.name p)) + N.of_nat (List.length (Part.ext p))
  + 20012.

Fixpoint contextBudget (parts : list Part.t) : N :=
  match parts with
  | [] => 0
  | p :: rest => segmentBudget p + 2 + contextBudget rest
  end.

(** What an open UTF-8 sequence may still add to the decoded text
    beyond one unit per byte. *)
Definition pendingUnits (st : Utf8State) : nat :=
  if needed st =? 0 then 0%nat else 1%nat.

(** Every library and service works: pdf-parse reads "Hello PDF" on one
    page, mammoth and xlsx return text, the OCR service returns two pages,
    and the answering service answers "42" with the model of
    [GEMINI_MODEL]. *)
Definition answeringEnv : Env :=
  mkEnv (Some (js "K1234567")) (Some (js "secret")) (Some (js "gemini-pro"))
        (fun _ => Ret (Some (PdfData.mk (Some (js "Hello PDF")) (Some 1))))
        (fun _ => Ret (Some (js "doc text")))
        (fun _ => Ret [js "a,b"; js "c,d"])
        (fun _ _ _ =>
           Parsed (Some (OcrData.mk
                           (Some [Some (OcrData.mkResult (Some (js "page one")));
                                  Some (OcrData.mkResult (Some (js "page two")))]))))
        (fun _ => Ret (Some (js "abc")))
        (fun _ _ =>
           Ret (Some (GeminiData.mk
                        (Some [Some (GeminiData.mkCandidate
                                       (Some (GeminiData.mkContent
                                                (Some [Some (GeminiData.mkPart
                                                               (Some (js "42")))]))))]))))
        (fun s => s).

Definition goodPdf : UploadedFile.t := upload "doc.PDF" "%PDF-1.7 body".
Definition docxFile : UploadedFile.t := upload "letter.docx" "PK".
Definition emptyTxt : UploadedFile.t := upload "empty.txt" "".
Definition utf8File : UploadedFile.t :=
  UploadedFile.mk (Some (js "euro.txt")) None (Some [xe2; x82; xac; x21]).

(* ------------------------------------------------------------------ *)
(** * Properties *)

(** ** Evaluation of the string and buffer primitives *)

Example js_hello : toStringUtf8 (bytesOf "hello world") = js "hello world".
Proof. reflexivity. Qed.

Example b64_hello : toStringBase64 (bytesOf "hello") = js "aGVsbG8=".
Proof. reflexivity. Qed.

Example kb_1536 : kbFixed1 1536 = js "1.5".
Proof. reflexivity. Qed.

Example kb_11 : kbFixed1 11 = js "0.0".
Proof. reflexivity. Qed.

Example utf8_euro : toStringUtf8 [xe2; x82; xac; xff] = [8364; 65533].
Proof. reflexivity. Qed.

(** ** Strings *)

Lemma jseqb_eq (a b : jsstring) : jseqb a b = true <-> a = b.
Proof.
  revert b. induction a as [|x a IH]; intros [|y b]; simpl; split;
    try congruence; try reflexivity.
  - intros H. apply andb_true_iff in H as [H1 H2].
    apply N.eqb_eq in H1. apply IH in H2. congruence.
  - intros H. injection H as -> ->. rewrite N.eqb_refl. simpl.
    now apply IH.
Qed.

Lemma join_nil_inv (sep : jsstring) (l : list jsstring) :
  Forall (fun x => x <> []) l -> join sep l = [] -> l = [].
Proof.
  intros Hl. destruct l as [|x l]; [reflexivity|].
  inversion Hl as [|? ? Hx _]; subst.
  destruct l as [|y l]; simpl; intros H.
  - contradiction.
  - apply app_eq_nil in H as [H _]. contradiction.
Qed.

Lemma nonBlank_spec (s : jsstring) : nonBlank s = true <-> trim s <> [].
Proof.
  unfold nonBlank. destruct s as [|c s].
  - split; [discriminate | intros H; now elim H].
  - destruct (trim (c :: s)) as [|d r]; simpl; split; intros H;
      congruence.
Qed.

(** ** The loop *)

Lemma extractFile_frame env f name ext imgs :
  extractFile env f name ext imgs =
  match extractFile env f name ext [] with
  | (t, Ret (text, err, pushed)) => (t, Ret (text, err, imgs ++ pushed))
  | (t, Throw m) => (t, Throw m)
  end.
Proof.
  unfold extractFile.
  destruct (jseqb ext (js "pdf")).
  { destruct (extractTextFromPdf env (UploadedFile.buffer f)) as [t [r|m]];
      simpl; [|reflexivity].
    destruct (PdfResult.isScanned r); simpl; now rewrite ?app_nil_r. }
  destruct (jseqb ext (js "docx")).
  { unfold call, bind.
    destruct (mammothExtractRawText env (UploadedFile.buffer f));
      simpl; [now rewrite ?app_nil_r | reflexivity]. }
  destruct (jseqb ext (js "xlsx")).
  { unfold call, bind.
    destruct (xlsxSheetsToCsv env (UploadedFile.buffer f));
      simpl; [now rewrite ?app_nil_r | reflexivity]. }
  destruct (jseqb ext (js "txt") || jseqb ext (js "html")).
  { destruct (UploadedFile.buffer f) as [[|b0 b]|]; simpl;
      try reflexivity. now rewrite ?app_nil_r. }
  destruct (isImageExt ext).
  { destruct (UploadedFile.buffer f) as [b|]; simpl; reflexivity. }
  simpl. now rewrite ?app_nil_r.
Qed.

Lemma fileStep_frame env f imgs :
  fileStep env f imgs =
  (stepTrace env f, (recordOf env f, imgs ++ pushedBy env f)).
Proof.
  unfold stepTrace, recordOf, pushedBy, fileStep.
  rewrite (extractFile_frame env f _ _ imgs).
  destruct (extractFile env f (fileName f) (fileExt env f) [])
    as [t [[[text err] pushed]|m]]; simpl; [reflexivity|].
  now rewrite app_nil_r.
Qed.

Lemma forFiles_frame env files : forall parts imgs,
  forFiles env files parts imgs =
  (flat_map (stepTrace env) files,
   (parts ++ map (recordOf env) files,
    imgs ++ flat_map (pushedBy env) files)).
Proof.
  induction files as [|f rest IH]; intros parts imgs; simpl.
  - now rewrite !app_nil_r.
  - rewrite fileStep_frame, IH. now rewrite <- !app_assoc.
Qed.

Lemma partsOf_map env files : partsOf env files = map (recordOf env) files.
Proof. unfold partsOf. now rewrite forFiles_frame. Qed.

Lemma imagePartsOf_flat env files :
  imagePartsOf env files = flat_map (pushedBy env) files.
Proof. unfold imagePartsOf. now rewrite forFiles_frame. Qed.

Lemma loopTrace_flat env files :
  loopTrace env files = flat_map (stepTrace env) files.
Proof. unfold loopTrace. now rewrite forFiles_frame. Qed.

Lemma recordOf_name env f : Part.name (recordOf env f) = fileName f.
Proof.
  unfold recordOf, fileStep.
  destruct (extractFile env f (fileName f) (fileExt env f) [])
    as [t [[[text err] pushed]|m]]; reflexivity.
Qed.

Lemma recordOf_ext env f : Part.ext (recordOf env f) = fileExt env f.
Proof.
  unfold recordOf, fileStep.
  destruct (extractFile env f (fileName f) (fileExt env f) [])
    as [t [[[text err] pushed]|m]]; reflexivity.
Qed.

Lemma recordOf_size env f : Part.size (recordOf env f) = fileSize f.
Proof.
  unfold recordOf, fileStep.
  destruct (extractFile env f (fileName f) (fileExt env f) [])
    as [t [[[text err] pushed]|m]]; reflexivity.
Qed.

(** ** The reply, case by case *)

Lemma askWithFiles_unfold env req :
  askWithFiles env req =
  match filesOf req with
  | [] => ([], Status400 (js "No files uploaded"))
  | _ :: _ =>
      let files := filesOf req in
      match GEMINI_API_KEY env with
      | Some ((_ :: _) as geminiKey) =>
          if hasContent env files then
            let call := CallGemini (endpointOf env geminiKey)
                                   (requestBody env req) in
            match axiosPost env (endpointOf env geminiKey)
                            (requestBody env req) with
            | Ret data =>
                (loopTrace env files ++ [call],
                 Json200 (withAnswer (responseOf (partsOf env files))
                                     (textResp data)))
            | Throw message =>
                (loopTrace env files ++ [call],
                 Status500 (js "Failed to process files") message)
            end
          else
            (loopTrace env files,
             Json200 (noContentResponse (partsOf env files)))
      | _ =>
          (loopTrace env files, Json200 (responseOf (partsOf env files)))
      end
  end.
Proof.
  unfold askWithFiles, handler, requestBody, hasContent, filesOf,
    partsOf, imagePartsOf, loopTrace.
  destruct (Request.files req) as [[|f rest]|]; try reflexivity.
  destruct (forFiles env (f :: rest) [] []) as [t [parts imgs]].
  unfold total, bind; simpl fst; simpl snd.
  destruct (GEMINI_API_KEY env) as [[|c k]|];
    try (simpl; now rewrite app_nil_r).
  match goal with
  | |- context [negb (?a || ?b)] => destruct (a || b)
  end; simpl negb; cbv iota.
  - unfold call.
    destruct (axiosPost env _ _); simpl; now rewrite ?app_nil_r.
  - simpl. now rewrite app_nil_r.
Qed.

Lemma extractTextFromPdf_trace env buffer :
  existsb isGeminiCall (fst (extractTextFromPdf env buffer)) = false.
Proof.
  unfold extractTextFromPdf.
  destruct buffer as [[|b0 b]|]; try reflexivity.
  destruct (negb _); [reflexivity|].
  unfold call, bind, tryCatch.
  destruct (pdfParse env (b0 :: b)) as [data|m]; [|reflexivity].
  destruct (extractedLength data =? 0); reflexivity.
Qed.

Lemma stepTrace_no_gemini env f :
  existsb isGeminiCall (stepTrace env f) = false.
Proof.
  unfold stepTrace, fileStep.
  assert (H : existsb isGeminiCall
                (fst (extractFile env f (fileName f) (fileExt env f) []))
              = false).
  { unfold extractFile.
    destruct (jseqb _ (js "pdf")).
    { pose proof (extractTextFromPdf_trace env (UploadedFile.buffer f)) as H.
      destruct (extractTextFromPdf env (UploadedFile.buffer f))
        as [t [r|m]]; simpl in *; [|exact H].
      destruct (PdfResult.isScanned r); simpl; now rewrite app_nil_r. }
    destruct (jseqb _ (js "docx")).
    { unfold call, bind.
      destruct (mammothExtractRawText env _); reflexivity. }
    destruct (jseqb _ (js "xlsx")).
    { unfold call, bind.
      destruct (xlsxSheetsToCsv env _); reflexivity. }
    destruct (_ || _).
    { destruct (UploadedFile.buffer f) as [[|b0 b]|]; reflexivity. }
    destruct (isImageExt _).
    { destruct (UploadedFile.buffer f) as [b|]; reflexivity. }
    reflexivity. }
  destruct (extractFile env f (fileName f) (fileExt env f) [])
    as [t [[[text err] pushed]|m]]; exact H.
Qed.

Lemma loopTrace_no_gemini env files :
  existsb isGeminiCall (loopTrace env files) = false.
Proof.
  rewrite loopTrace_flat.
  induction files as [|f rest IH]; simpl; [reflexivity|].
  now rewrite existsb_app, stepTrace_no_gemini, IH.
Qed.

(** ** The [files] array *)

(** C1.  For every list of uploaded files that [askWithFiles] processes,
    the [files] array of the response has exactly one entry per uploaded
    file, in the order of the input: entry [i] is the summary of the record
    of file [i] and carries its name, extension and size.  Every reply
    sent with the response object carries this array; the other replies
    are the rejection of an empty upload and the failure of the call to
    the answering service. *)
Theorem files_one_entry_per_upload (env : Env) (req : Request.t) :
  let files := filesOf req in
  let entries := Response.files (responseOf (partsOf env files)) in
  entries = map (fun f => fileEntry (recordOf env f)) files
  /\ List.length entries = List.length files
  /\ map FileEntry.name entries = map fileName files
  /\ map FileEntry.type entries = map (fileExt env) files
  /\ map FileEntry.size entries = map fileSize files
  /\ match snd (askWithFiles env req) with
     | Json200 r => Response.files r = entries
     | Status400 _ => files = []
     | Status500 _ details =>
         exists endpoint, axiosPost env endpoint (requestBody env req)
                          = Throw details
     end.
Proof.
  cbv zeta. set (files := filesOf req).
  change (Response.files (responseOf (partsOf env files)))
    with (map fileEntry (partsOf env files)).
  assert (E : map fileEntry (partsOf env files)
              = map (fun f => fileEntry (recordOf env f)) files)
    by now rewrite partsOf_map, map_map.
  split; [exact E|].
  split; [now rewrite !length_map, partsOf_map, length_map|].
  rewrite E at 1 2 3.
  split; [rewrite map_map; apply map_ext; intros f; apply recordOf_name|].
  split; [rewrite map_map; apply map_ext; intros f; apply recordOf_ext|].
  split; [rewrite map_map; apply map_ext; intros f; apply recordOf_size|].
  rewrite askWithFiles_unfold. fold files.
  destruct files as [|f rest] eqn:Hf; [reflexivity|].
  cbv zeta. rewrite <- Hf.
  destruct (GEMINI_API_KEY env) as [[|c k]|]; simpl; try reflexivity.
  destruct (hasContent env files); simpl; [|reflexivity].
  destruct (axiosPost env _ _) eqn:Hax; simpl; [reflexivity|].
  eexists; exact Hax.
Qed.

(** ** The extraction-only reply *)

(** C5, as amended.  When the credential of the answering service is
    absent and at least one file is uploaded, the reply is the response
    object with a null answer, its [extracted] field is the aggregated
    text, and the answering service is not called. *)
Theorem no_credential_extraction_only (env : Env) (req : Request.t) :
  truthy (GEMINI_API_KEY env) = false ->
  filesOf req <> [] ->
  exists r : Response.t,
    askWithFiles env req = (loopTrace env (filesOf req), Json200 r)
    /\ r = responseOf (partsOf env (filesOf req))
    /\ Response.answer r = None
    /\ Response.extracted r
       = join (nl ++ nl)
              (map segment (filter retained (partsOf env (filesOf req))))
    /\ existsb isGeminiCall (fst (askWithFiles env req)) = false.
Proof.
  intros Hkey Hfiles.
  assert (E : askWithFiles env req
              = (loopTrace env (filesOf req),
                 Json200 (responseOf (partsOf env (filesOf req))))).
  { rewrite askWithFiles_unfold.
    destruct (filesOf req) as [|f rest] eqn:Hf; [now elim Hfiles|].
    cbv zeta. rewrite <- Hf.
    destruct (GEMINI_API_KEY env) as [[|c k]|]; try reflexivity.
    simpl in Hkey. discriminate Hkey. }
  exists (responseOf (partsOf env (filesOf req))).
  split; [exact E|]. split; [reflexivity|]. split; [reflexivity|].
  split; [reflexivity|].
  rewrite E. apply loopTrace_no_gemini.
Qed.

Lemma no_credential_extraction_only_witness :
  askWithFiles offlineEnv helloRequest = ([], Json200 helloResponse)
  /\ existsb isGeminiCall (fst (askWithFiles offlineEnv helloRequest)) = false.
Proof.
  destruct (no_credential_extraction_only offlineEnv helloRequest)
    as (r & E & -> & _ & _ & T).
  - reflexivity.
  - discriminate.
  - split; [rewrite E; reflexivity | exact T].
Defined.

(** With no credential and no file the reply is the rejection, which has
    neither an [answer] nor an [extracted] field. *)
Lemma no_credential_empty_upload_rejected :
  truthy (GEMINI_API_KEY offlineEnv) = false
  /\ askWithFiles offlineEnv (Request.mk (Some []) (Some (js "hi")))
     = ([], Status400 (js "No files uploaded"))
  /\ askWithFiles offlineEnv (Request.mk None None)
     = ([], Status400 (js "No files uploaded")).
Proof. repeat split. Qed.

(** ** The scenario with one text file *)

(** C9.  One file [file.txt] holding the eleven bytes of "hello world",
    the question "what does this say?" and no credential for the answering
    service: the reply is exactly the response with the headed text, a null
    answer and the single file entry. *)
Theorem hello_world_scenario (env : Env) :
  truthy (GEMINI_API_KEY env) = false ->
  askWithFiles env helloRequest
  = ([], Json200
           (Response.mk
              (js "--- file.txt (txt) ---" ++ nl ++ js "hello world")
              None
              [FileEntry.mk (js "file.txt") (js "txt") 11 11 None]
              None)).
Proof.
  intros Hkey. rewrite askWithFiles_unfold.
  change (filesOf helloRequest) with [helloFile]. cbv zeta.
  destruct (GEMINI_API_KEY env) as [[|c k]|]; simpl in Hkey;
    try discriminate Hkey; reflexivity.
Qed.

Lemma hello_world_scenario_witness :
  askWithFiles offlineEnv helloRequest = ([], Json200 helloResponse).
Proof. apply (hello_world_scenario offlineEnv). reflexivity. Defined.

(** ** The signature check of the PDF extractor *)

Ltac shape := cbn [High app fst snd needed cp lower upper utf8Init] in *.

Ltac arith :=
  repeat match goal with
         | H : (_ && _) = true |- _ => apply andb_true_iff in H as [? ?]
         | H : (_ <=? _) = true |- _ => apply N.leb_le in H
         | H : (_ <=? _) = false |- _ => apply N.leb_gt in H
         | H : (_ <? _) = true |- _ => apply N.ltb_lt in H
         | H : (_ <? _) = false |- _ => apply N.ltb_ge in H
         | H : (_ =? _) = true |- _ => apply N.eqb_eq in H
         | H : (_ =? _) = false |- _ => apply N.eqb_neq in H
         end.

Lemma utf16_high (c : N) (rest : jsstring) : 128 <= c -> High (utf16 c ++ rest).
Proof.
  intros H. unfold utf16. destruct (c <? 65536); shape; [lia|].
  apply N.le_trans with 55296; [lia | apply N.le_add_r].
Qed.

Lemma utf8Lead_cases (b : N) :
  (b < 128 /\ utf8Lead b = ([b], utf8Init))
  \/ (128 <= b /\ fst (utf8Lead b) = [] /\ Open (snd (utf8Lead b)))
  \/ (128 <= b /\ utf8Lead b = ([65533], utf8Init)).
Proof.
  unfold utf8Lead, Open.
  destruct (b <? 128) eqn:H0; arith; [left; split; [lia | reflexivity]|].
  right.
  destruct ((194 <=? b) && (b <=? 223)) eqn:H1; arith.
  { left. shape. split; [lia|]. split; [reflexivity|]. split; [lia|].
    left. split; [reflexivity | lia]. }
  destruct ((224 <=? b) && (b <=? 239)) eqn:H2; arith.
  { left. shape. split; [lia|]. split; [reflexivity|].
    split; [destruct (b =? 224); lia|].
    right; left. split; [reflexivity|].
    destruct (b =? 224) eqn:E; arith; lia. }
  destruct ((240 <=? b) && (b <=? 244)) eqn:H3; arith.
  { left. shape. split; [lia|]. split; [reflexivity|].
    split; [destruct (b =? 240); lia|].
    right; right. split; [reflexivity|].
    destruct (b =? 240) eqn:E; arith; lia. }
  right. split; [lia | reflexivity].
Qed.

Lemma utf8Go_open (bs : Buffer) : forall st, Open st -> High (utf8Go st bs).
Proof.
  induction bs as [|b rest IH]; intros st [Hlow Hst]; cbn [utf8Go].
  - destruct (needed st =? 0); shape; lia.
  - unfold utf8Step.
    assert (Hn : (needed st =? 0) = false) by (apply N.eqb_neq; lia).
    rewrite Hn.
    set (n := Byte.to_N b).
    destruct ((lower st <=? n) && (n <=? upper st)) eqn:Hr.
    + apply andb_true_iff in Hr as [Hl _]. apply N.leb_le in Hl.
      destruct (needed st =? 1) eqn:H1.
      * apply N.eqb_eq in H1. apply utf16_high. lia.
      * apply N.eqb_neq in H1. shape. apply IH. unfold Open; shape.
        split; [lia|].
        destruct Hst as [[? ?]|[[E ?]|[E ?]]]; [lia| |]; rewrite E.
        -- left. split; [reflexivity | lia].
        -- right; left. split; [reflexivity | lia].
    + destruct (utf8Lead n) as [out st']. shape. lia.
Qed.

(** The first byte of a buffer whose text starts with an ASCII unit is
    that unit, and the rest of the text is the text of the rest. *)
Lemma utf8Go_ascii_head (bs : Buffer) (u : N) (s : jsstring) :
  utf8Go utf8Init bs = u :: s -> u < 128 ->
  exists b rest, bs = b :: rest /\ Byte.to_N b = u
                 /\ utf8Go utf8Init rest = s.
Proof.
  destruct bs as [|b rest]; cbn [utf8Go]; [discriminate|].
  intros H Hu. exists b, rest. split; [reflexivity|].
  unfold utf8Step in H. change (needed utf8Init =? 0) with true in H.
  cbv iota in H.
  destruct (utf8Lead_cases (Byte.to_N b)) as [[_ E]|[(Hb & E & Ho)|[Hb E]]].
  - rewrite E in H. shape. injection H as -> ->. now split.
  - destruct (utf8Lead (Byte.to_N b)) as [out st']. shape.
    subst out. shape. pose proof (utf8Go_open rest st' Ho) as Hh.
    rewrite H in Hh. shape. lia.
  - rewrite E in H. shape. injection H as <- _. lia.
Qed.

Lemma startsWith_cons (s pre : jsstring) (p : N) :
  startsWith s (p :: pre) = true ->
  exists s', s = p :: s' /\ startsWith s' pre = true.
Proof.
  destruct s as [|c s']; simpl; [discriminate|].
  intros H. apply andb_true_iff in H as [H1 H2]. apply N.eqb_eq in H1.
  subst c. now exists s'.
Qed.

Lemma byte_of_unit (b : byte) (u : N) (c : byte) :
  Byte.to_N b = u -> Byte.of_N u = Some c -> b = c.
Proof.
  intros <- H. rewrite Byte.of_to_N in H. now injection H.
Qed.

Lemma pdf_header_check (b : Buffer) :
  startsWith (toStringUtf8 (firstn 4 b)) pdfSignature = true
  <-> firstn 4 b = bytesOf "%PDF".
Proof.
  split.
  - unfold toStringUtf8, pdfSignature. intros H.
    assert (L : (List.length (firstn 4 b) <= 4)%nat) by apply firstn_le_length.
    revert H L. generalize (firstn 4 b) as bs. intros bs H L.
    change (js "%PDF") with [37; 80; 68; 70] in H.
    apply startsWith_cons in H as (s1 & E1 & H).
    apply utf8Go_ascii_head in E1 as (b1 & r1 & -> & U1 & E1); [|lia].
    subst s1.
    apply startsWith_cons in H as (s2 & E2 & H).
    apply utf8Go_ascii_head in E2 as (b2 & r2 & -> & U2 & E2); [|lia].
    subst s2.
    apply startsWith_cons in H as (s3 & E3 & H).
    apply utf8Go_ascii_head in E3 as (b3 & r3 & -> & U3 & E3); [|lia].
    subst s3.
    apply startsWith_cons in H as (s4 & E4 & H).
    apply utf8Go_ascii_head in E4 as (b4 & r4 & -> & U4 & E4); [|lia].
    destruct r4; [|simpl in L; lia].
    rewrite (byte_of_unit b1 37 "%"%byte U1 eq_refl).
    rewrite (byte_of_unit b2 80 "P"%byte U2 eq_refl).
    rewrite (byte_of_unit b3 68 "D"%byte U3 eq_refl).
    rewrite (byte_of_unit b4 70 "F"%byte U4 eq_refl).
    reflexivity.
  - intros ->. reflexivity.
Qed.

(** ** PDF files *)

Lemma fileStep_pdf env f :
  fileExt env f = js "pdf" ->
  fileStep env f [] =
  match extractTextFromPdf env (UploadedFile.buffer f) with
  | (t, Ret r) =>
      (t, (Part.mk (fileName f) (js "pdf") (PdfResult.text r) (fileSize f)
                   (if PdfResult.isScanned r then PdfResult.info r else None),
           []))
  | (t, Throw message) =>
      (t, (Part.mk (fileName f) (js "pdf") [] (fileSize f) (Some message), []))
  end.
Proof.
  intros E. unfold fileStep, extractFile. rewrite E.
  change (jseqb (js "pdf") (js "pdf")) with true. cbv iota.
  destruct (extractTextFromPdf env (UploadedFile.buffer f)) as [t [r|m]];
    unfold bind; [|reflexivity].
  destruct (PdfResult.isScanned r); unfold ret; now rewrite app_nil_r.
Qed.

Lemma extractTextFromPdf_rejects env buffer :
  lacksPdfSignature buffer ->
  exists reason,
    extractTextFromPdf env buffer
    = ([], Throw (js "PDF parsing failed: " ++ reason)).
Proof.
  unfold extractTextFromPdf. intros H.
  destruct buffer as [[|b0 b]|]; try (eexists; reflexivity).
  destruct H as [H|H]; [discriminate|].
  destruct (startsWith (toStringUtf8 (firstn 4 (b0 :: b))) pdfSignature)
    eqn:Hs.
  - apply pdf_header_check in Hs. contradiction.
  - eexists; reflexivity.
Qed.

Lemma extractTextFromPdf_scanned env buffer b data :
  buffer = Some b ->
  firstn 4 b = bytesOf "%PDF" ->
  pdfParse env b = Ret data ->
  extractedLength data = 0 ->
  extractTextFromPdf env buffer
  = ([CallPdfParse b],
     Ret (PdfResult.mk [] true (numpagesOf data) (Some scannedInfo))).
Proof.
  intros -> Hsig Hparse Hlen. unfold extractTextFromPdf.
  destruct b as [|b0 b]; [discriminate Hsig|].
  apply pdf_header_check in Hsig. rewrite Hsig. cbv iota. simpl negb.
  cbv iota. unfold call, bind, tryCatch. rewrite Hparse, Hlen.
  reflexivity.
Qed.

(** Every reply other than the failure of the answering service is
    the rejection of an empty upload or carries the response object. *)
Lemma askWithFiles_reply env req :
  match snd (askWithFiles env req) with
  | Status400 _ => filesOf req = []
  | Json200 r =>
      Response.files r = map (fun f => fileEntry (recordOf env f)) (filesOf req)
  | Status500 _ details =>
      exists endpoint,
        axiosPost env endpoint (requestBody env req) = Throw details
  end.
Proof.
  rewrite askWithFiles_unfold.
  destruct (filesOf req) as [|f rest] eqn:Hf; [reflexivity|].
  cbv zeta. rewrite <- Hf.
  assert (E : map fileEntry (partsOf env (filesOf req))
              = map (fun f => fileEntry (recordOf env f)) (filesOf req))
    by now rewrite partsOf_map, map_map.
  destruct (GEMINI_API_KEY env) as [[|c k]|]; simpl; try exact E.
  destruct (hasContent env (filesOf req)); simpl; [|exact E].
  destruct (axiosPost env _ _) eqn:Hax; simpl; [exact E|].
  eexists; exact Hax.
Qed.

(** C8.  A file with extension [pdf] whose buffer is missing, empty or does
    not begin with the signature gets a record with a populated error and
    empty text; the parser is not called; the records of the files before
    and after it are what they are without it, and the request is answered
    as usual: the only failing reply is that of the answering service. *)
Theorem bad_pdf_is_recorded_and_isolated
    (env : Env) (before after : list UploadedFile.t) (f : UploadedFile.t)
    (question : option jsstring) :
  fileExt env f = js "pdf" ->
  lacksPdfSignature (UploadedFile.buffer f) ->
  let files := before ++ f :: after in
  (exists message,
      Part.error (recordOf env f) = Some message
      /\ message <> []
      /\ FileEntry.error (fileEntry (recordOf env f)) = Some message)
  /\ Part.text (recordOf env f) = []
  /\ FileEntry.textLength (fileEntry (recordOf env f)) = 0
  /\ stepTrace env f = []
  /\ partsOf env files
     = map (recordOf env) before ++ recordOf env f :: map (recordOf env) after
  /\ match snd (askWithFiles env (Request.mk (Some files) question)) with
     | Status400 _ => False
     | Json200 r =>
         nth_error (Response.files r) (List.length before)
         = Some (fileEntry (recordOf env f))
         /\ List.length (Response.files r) = List.length files
     | Status500 _ details =>
         exists endpoint body, axiosPost env endpoint body = Throw details
     end.
Proof.
  intros Hext Hbad files.
  destruct (extractTextFromPdf_rejects env _ Hbad) as [reason Hr].
  pose proof (fileStep_pdf env f Hext) as Hstep. rewrite Hr in Hstep.
  unfold recordOf, stepTrace. rewrite Hstep. cbn [fst snd].
  split.
  { exists (js "PDF parsing failed: " ++ reason).
    split; [reflexivity|]. split; [discriminate | reflexivity]. }
  split; [reflexivity|]. split; [reflexivity|]. split; [reflexivity|].
  split.
  { rewrite partsOf_map. unfold files. rewrite map_app. simpl.
    unfold recordOf at 2. now rewrite Hstep. }
  pose proof (askWithFiles_reply env (Request.mk (Some files) question)) as H.
  change (filesOf (Request.mk (Some files) question)) with files in H.
  destruct (snd (askWithFiles env (Request.mk (Some files) question)))
    as [e|r|e d].
  - unfold files in H. now destruct before.
  - rewrite H. split; [|now rewrite length_map].
    unfold files. rewrite map_app. simpl.
    rewrite nth_error_app2; rewrite length_map; [|lia].
    rewrite Nat.sub_diag. simpl. unfold recordOf. now rewrite Hstep.
  - destruct H as [endpoint H]. eauto.
Qed.

Lemma bad_pdf_is_recorded_and_isolated_witness :
  fileExt offlineEnv notAPdf = js "pdf"
  /\ lacksPdfSignature (UploadedFile.buffer notAPdf)
  /\ Part.text (recordOf offlineEnv notAPdf) = []
  /\ partsOf offlineEnv ([helloFile] ++ notAPdf :: [helloFile])
     = [recordOf offlineEnv helloFile; recordOf offlineEnv notAPdf;
        recordOf offlineEnv helloFile].
Proof.
  assert (E : fileExt offlineEnv notAPdf = js "pdf") by reflexivity.
  assert (B : lacksPdfSignature (UploadedFile.buffer notAPdf))
    by (right; discriminate).
  destruct (bad_pdf_is_recorded_and_isolated
              offlineEnv [helloFile] [helloFile] notAPdf None E B)
    as (_ & T & _ & _ & P & _).
  repeat split; assumption.
Defined.

(** C2, as amended.  For a PDF whose parse succeeds and yields no text,
    [extractTextFromPdf] returns normally a result with [isScanned] set,
    empty text and a readable diagnostic; [askWithFiles] stores that
    diagnostic in the [error] field of the file's record, whose text is
    empty, and the response shows it as the file's [error]. *)
Theorem scanned_pdf_diagnostic_in_error
    (env : Env) (f : UploadedFile.t) (b : Buffer) (data : option PdfData.t) :
  fileExt env f = js "pdf" ->
  UploadedFile.buffer f = Some b ->
  firstn 4 b = bytesOf "%PDF" ->
  pdfParse env b = Ret data ->
  extractedLength data = 0 ->
  extractTextFromPdf env (UploadedFile.buffer f)
  = ([CallPdfParse b],
     Ret (PdfResult.mk [] true (numpagesOf data) (Some scannedInfo)))
  /\ scannedInfo <> []
  /\ Part.text (recordOf env f) = []
  /\ Part.error (recordOf env f) = Some scannedInfo
  /\ FileEntry.textLength (fileEntry (recordOf env f)) = 0
  /\ FileEntry.error (fileEntry (recordOf env f)) = Some scannedInfo.
Proof.
  intros Hext Hbuf Hsig Hparse Hlen.
  pose proof (extractTextFromPdf_scanned env _ b data Hbuf Hsig Hparse Hlen)
    as Hx.
  pose proof (fileStep_pdf env f Hext) as Hstep.
  rewrite Hx in Hstep.
  unfold recordOf. rewrite Hstep. cbn [fst snd PdfResult.isScanned
    PdfResult.text PdfResult.info Part.text Part.error].
  split; [exact Hx|]. split; [discriminate|].
  repeat split.
Qed.

Lemma scanned_pdf_diagnostic_in_error_witness :
  fileExt keyedEnv scannedPdf = js "pdf"
  /\ extractedLength (Some (PdfData.mk (Some []) (Some 3))) = 0
  /\ Part.error (recordOf keyedEnv scannedPdf) = Some scannedInfo
  /\ FileEntry.error (fileEntry (recordOf keyedEnv scannedPdf))
     = Some scannedInfo.
Proof.
  assert (E : fileExt keyedEnv scannedPdf = js "pdf") by reflexivity.
  destruct (scanned_pdf_diagnostic_in_error keyedEnv scannedPdf
              (bytesOf "%PDF-1.4") (Some (PdfData.mk (Some []) (Some 3)))
              E eq_refl eq_refl eq_refl eq_refl)
    as (_ & _ & _ & P & _ & F).
  repeat split; assumption.
Defined.

(** The parse of [scan.pdf] succeeds and finds no text, and the [error]
    field of its record and of its entry in the response is populated. *)
Lemma scanned_pdf_error_is_populated :
  fileExt keyedEnv scannedPdf = js "pdf"
  /\ pdfParse keyedEnv (bytesOf "%PDF-1.4")
     = Ret (Some (PdfData.mk (Some []) (Some 3)))
  /\ fst (snd (fileStep keyedEnv scannedPdf []))
     = Part.mk (js "scan.pdf") (js "pdf") [] 8 (Some scannedInfo)
  /\ Part.error (recordOf keyedEnv scannedPdf) <> None
  /\ FileEntry.error (fileEntry (recordOf keyedEnv scannedPdf)) <> None.
Proof. repeat split; discriminate. Qed.

(** ** The reply without content *)

Lemma analysisLine_enumerates (parts : list Part.t) :
  Forall2 enumerates parts (map analysisLine parts).
Proof.
  induction parts as [|p parts IH]; simpl; constructor; [|exact IH].
  exists (js "undefined"). reflexivity.
Qed.

Lemma combinedOf_empty_texts (parts : list Part.t) :
  (forall p, In p parts -> Part.text p = []) -> combinedOf parts = [].
Proof.
  intros H. unfold combinedOf.
  replace (filter retained parts) with (@nil Part.t); [reflexivity|].
  symmetry. induction parts as [|p parts IH]; [reflexivity|].
  simpl. unfold retained at 1. rewrite (H p (or_introl eq_refl)). simpl.
  apply IH. intros q Hq. apply H. now right.
Qed.

(** C3, as amended.  When the credential of the answering service is set,
    at least one file is uploaded, every file yields empty text and no
    image part exists, the reply carries a synthesized, non-null answer and
    the answering service is not called; the answer lists one line per
    file, in order, with the file's name, its size in KB and its recorded
    error or the note [No text found], and the [error] field of the reply
    joins the recorded errors. *)
Theorem no_content_diagnostic
    (env : Env) (req : Request.t) (key : jsstring) :
  GEMINI_API_KEY env = Some key ->
  key <> [] ->
  filesOf req <> [] ->
  (forall p, In p (partsOf env (filesOf req)) -> Part.text p = []) ->
  imagePartsOf env (filesOf req) = [] ->
  exists (r : Response.t) (lines : list jsstring),
    askWithFiles env req = (loopTrace env (filesOf req), Json200 r)
    /\ existsb isGeminiCall (fst (askWithFiles env req)) = false
    /\ Response.answer r
       = Some (diagnosticIntro ++ join nl lines ++ diagnosticOutro)
    /\ Forall2 enumerates (partsOf env (filesOf req)) lines
    /\ Response.error r
       = Some (js "No content could be extracted from the uploaded files. Details: "
               ++ errorDetails (partsOf env (filesOf req))).
Proof.
  intros Hkey Hk Hfiles Htexts Himgs.
  assert (E : askWithFiles env req
              = (loopTrace env (filesOf req),
                 Json200 (noContentResponse (partsOf env (filesOf req))))).
  { rewrite askWithFiles_unfold.
    destruct (filesOf req) as [|f rest] eqn:Hf; [now elim Hfiles|].
    cbv zeta. rewrite <- Hf in *. rewrite Hkey.
    destruct key as [|c k]; [now elim Hk|].
    unfold hasContent. rewrite Himgs, (combinedOf_empty_texts _ Htexts).
    reflexivity. }
  exists (noContentResponse (partsOf env (filesOf req))),
         (map analysisLine (partsOf env (filesOf req))).
  split; [exact E|].
  split; [rewrite E; apply loopTrace_no_gemini|].
  split; [reflexivity|].
  split; [apply analysisLine_enumerates | reflexivity].
Qed.

Lemma no_content_diagnostic_witness :
  GEMINI_API_KEY keyedEnv = Some (js "secret")
  /\ filesOf (Request.mk (Some [unknownFile]) None) <> []
  /\ imagePartsOf keyedEnv [unknownFile] = []
  /\ exists r,
       askWithFiles keyedEnv (Request.mk (Some [unknownFile]) None)
       = ([], Json200 r)
       /\ Response.answer r <> None.
Proof.
  split; [reflexivity|]. split; [discriminate|]. split; [reflexivity|].
  destruct (no_content_diagnostic keyedEnv
              (Request.mk (Some [unknownFile]) None) (js "secret"))
    as (r & lines & E & _ & A & _).
  - reflexivity.
  - discriminate.
  - discriminate.
  - intros p [<-|[]]. reflexivity.
  - reflexivity.
  - exists r. split; [exact E|]. rewrite A. discriminate.
Defined.

(** Every file yields empty text and there is no image, but no credential
    is configured: the answer is null. *)
Lemma no_content_without_credential_answer_null :
  GEMINI_API_KEY offlineEnv = None
  /\ Part.text (recordOf offlineEnv unknownFile) = []
  /\ imagePartsOf offlineEnv [unknownFile] = []
  /\ askWithFiles offlineEnv (Request.mk (Some [unknownFile]) None)
     = ([], Json200
              (Response.mk []
                 None
                 [FileEntry.mk (js "a.xyz") (js "xyz") 11 0 None]
                 None)).
Proof. repeat split. Qed.

(** With the credential set, the line of the analysis prints [undefined]
    where the type of the file is meant. *)
Lemma no_content_line_of_unknown_file :
  exists r,
    snd (askWithFiles keyedEnv (Request.mk (Some [unknownFile]) None))
    = Json200 r
    /\ Response.answer r
       = Some (diagnosticIntro
               ++ [8226] ++ js " a.xyz (undefined, 0.0KB): No text found"
               ++ diagnosticOutro).
Proof. eexists. split; reflexivity. Qed.

(** ** The OCR chain *)

Lemma tesseractOcr_total env buffer :
  tesseractOcr env buffer = ([CallTesseract buffer], Ret (localText env buffer)).
Proof.
  unfold tesseractOcr, localText, call, bind, tryCatch.
  destruct (tesseractRecognize env buffer); reflexivity.
Qed.

Lemma mapM_parsedText results :
  mapM parsedText results
  = ([], if existsb (fun r => match r with None => true | Some _ => false end)
                    results
         then Throw (js "Cannot read properties of null (reading 'ParsedText')")
         else Ret (parsedTexts results)).
Proof.
  induction results as [|[p|] results IH]; simpl; try reflexivity.
  rewrite IH. unfold bind, ret. simpl.
  destruct (existsb _ results); reflexivity.
Qed.

Lemma existsb_null results :
  existsb (fun r : option OcrData.ParsedResult =>
             match r with None => true | Some _ => false end) results = true
  <-> In None results.
Proof.
  rewrite existsb_exists. split.
  - intros ([p|] & Hin & H); [discriminate | exact Hin].
  - intros H. now exists None.
Qed.

(** An unusable reply makes the [try] block end without a text: it raises
    or finds nothing. *)
Lemma hostedText_unusable data :
  Unusable (Parsed data) ->
  (exists message, hostedText data = ([], Throw message))
  \/ hostedText data = ([], Ret None).
Proof.
  intros H. inversion H; subst; try (right; reflexivity).
  - destruct results as [|[p|] results]; try (right; reflexivity).
    left. unfold hostedText. cbn [OcrData.ParsedResults].
    rewrite mapM_parsedText.
    match goal with
    | |- context [existsb ?g ?l] => replace (existsb g l) with true
    end; [eexists; reflexivity|].
    symmetry. now apply existsb_null.
  - destruct results as [|[p|] results]; try (right; reflexivity).
    unfold hostedText. cbn [OcrData.ParsedResults].
    rewrite mapM_parsedText.
    destruct (existsb _ (Some p :: results)); [left; eexists; reflexivity|].
    right. unfold bind. cbn [app].
    match goal with H : nonBlank _ = false |- _ => rewrite H end.
    reflexivity.
Qed.

(** C4.  For every buffer the OCR chain returns a string and never raises.
    Without a credential for the hosted service it calls the local engine
    only; when the hosted service is called and its reply is unusable
    (transport error, malformed response, empty result) the chain returns
    the result of the local engine, which is the empty string when that
    engine fails. *)
Theorem ocr_chain_total (env : Env) (buffer : Buffer) (filename : jsstring) :
  (exists trace text, extractText env buffer filename = (trace, Ret text))
  /\ tesseractOcr env buffer
     = ([CallTesseract buffer], Ret (localText env buffer))
  /\ (forall message,
        tesseractRecognize env buffer = Throw message ->
        localText env buffer = [])
  /\ (truthy (OCR_SPACE_API_KEY env) = false ->
      extractText env buffer filename
      = ([CallTesseract buffer], Ret (localText env buffer)))
  /\ (forall key,
        OCR_SPACE_API_KEY env = Some key -> key <> [] ->
        Unusable (fetchOcrSpace env key buffer filename) ->
        extractText env buffer filename
        = ([CallOcrSpace key buffer filename; CallTesseract buffer],
           Ret (localText env buffer))).
Proof.
  split.
  { unfold extractText.
    destruct (OCR_SPACE_API_KEY env) as [[|c k]|];
      try (rewrite tesseractOcr_total; do 2 eexists; reflexivity).
    unfold call, bind, tryCatch.
    destruct (fetchOcrSpace env (c :: k) buffer filename) as [m|m|data];
      cbn [hostedOutcome]; try (rewrite tesseractOcr_total; do 2 eexists; reflexivity).
    destruct (hostedText data) as [t [[text|]|m]];
      rewrite ?tesseractOcr_total; do 2 eexists; reflexivity. }
  split; [apply tesseractOcr_total|].
  split.
  { intros message H. unfold localText. now rewrite H. }
  split.
  { intros Hkey. unfold extractText.
    destruct (OCR_SPACE_API_KEY env) as [[|c k]|];
      try apply tesseractOcr_total. discriminate Hkey. }
  intros key Hkey Hk Hu. unfold extractText. rewrite Hkey.
  destruct key as [|c k]; [now elim Hk|].
  unfold call, bind, tryCatch.
  destruct (fetchOcrSpace env (c :: k) buffer filename) as [m|m|data];
    cbn [hostedOutcome]; try (rewrite tesseractOcr_total; reflexivity).
  destruct (hostedText_unusable data Hu) as [[m E]|E]; rewrite E;
    rewrite tesseractOcr_total; reflexivity.
Qed.

Example ocr_chain_without_key :
  extractText offlineEnv (bytesOf "img") (js "a.png")
  = ([CallTesseract (bytesOf "img")], Ret []).
Proof. reflexivity. Qed.

Example ocr_chain_empty_results :
  extractText keyedEnv (bytesOf "img") (js "a.png")
  = ([CallOcrSpace (js "K1234567") (bytesOf "img") (js "a.png");
      CallTesseract (bytesOf "img")],
     Ret (js "abc")).
Proof. reflexivity. Qed.

(** ** Aggregation *)

Lemma join_contains (sep x : jsstring) (l : list jsstring) :
  In x l -> exists before after, join sep l = before ++ x ++ after.
Proof.
  induction l as [|y l IH]; [intros []|].
  intros [->|H].
  - destruct l as [|z l].
    + exists [], []. simpl. now rewrite app_nil_r.
    + exists [], (sep ++ join sep (z :: l)). reflexivity.
  - destruct (IH H) as (before & after & E).
    destruct l as [|z l]; [destruct H|].
    exists (y ++ sep ++ before), after.
    change (join sep (y :: z :: l)) with (y ++ sep ++ join sep (z :: l)).
    rewrite E. now rewrite <- !app_assoc.
Qed.

Lemma slice0_prefix (n : N) (s : jsstring) :
  exists rest, s = slice0 n s ++ rest
               /\ N.of_nat (List.length (slice0 n s))
                  = N.min n (N.of_nat (List.length s)).
Proof.
  exists (skipn (N.to_nat n) s). unfold slice0. split.
  - symmetry. apply firstn_skipn.
  - rewrite length_firstn, Nat2N.inj_min, N2Nat.id. reflexivity.
Qed.

(** C6.  The text segment a retained record contributes to the aggregated
    context is a header naming the file and its extension, followed by the
    first characters of the record's text, at most 20,000 of them. *)
Theorem segment_headed_and_truncated (parts : list Part.t) (p : Part.t) :
  In p parts ->
  retained p = true ->
  exists before after body rest,
    combinedOf parts = before ++ segment p ++ after
    /\ segment p = js "--- " ++ Part.name p ++ js " (" ++ Part.ext p
                   ++ js ") ---" ++ nl ++ body
    /\ Part.text p = body ++ rest
    /\ N.of_nat (List.length body)
       = N.min 20000 (N.of_nat (List.length (Part.text p)))
    /\ N.of_nat (List.length body) <= 20000.
Proof.
  intros Hin Hret.
  destruct (join_contains (nl ++ nl) (segment p)
              (map segment (filter retained parts)))
    as (before & after & E).
  { apply in_map, filter_In. now split. }
  destruct (slice0_prefix 20000 (Part.text p)) as (rest & Ht & Hl).
  exists before, after, (slice0 20000 (Part.text p)), rest.
  split; [exact E|]. split; [reflexivity|]. split; [exact Ht|].
  split; [exact Hl|]. rewrite Hl. apply N.le_min_l.
Qed.

Lemma segment_headed_and_truncated_witness :
  In (recordOf offlineEnv helloFile) (partsOf offlineEnv [helloFile])
  /\ retained (recordOf offlineEnv helloFile) = true
  /\ exists before after body rest,
       combinedOf (partsOf offlineEnv [helloFile])
       = before ++ segment (recordOf offlineEnv helloFile) ++ after
       /\ segment (recordOf offlineEnv helloFile)
          = js "--- " ++ js "file.txt" ++ js " (" ++ js "txt"
            ++ js ") ---" ++ nl ++ body
       /\ js "hello world" = body ++ rest
       /\ N.of_nat (List.length body) <= 20000.
Proof.
  assert (Hin : In (recordOf offlineEnv helloFile)
                   (partsOf offlineEnv [helloFile])) by (left; reflexivity).
  assert (Hret : retained (recordOf offlineEnv helloFile) = true)
    by reflexivity.
  split; [exact Hin|]. split; [exact Hret|].
  destruct (segment_headed_and_truncated _ _ Hin Hret)
    as (before & after & body & rest & E & S & T & _ & L).
  exists before, after, body, rest. repeat split; assumption.
Defined.

Lemma segment_not_nil (p : Part.t) : segment p <> [].
Proof. discriminate. Qed.

Lemma retained_false_iff (p : Part.t) :
  retained p = false <-> trim (Part.text p) = [].
Proof.
  unfold retained. pose proof (nonBlank_spec (Part.text p)) as [H1 H2].
  split; intros E.
  - destruct (trim (Part.text p)) as [|c s]; [reflexivity|].
    rewrite H2 in E; discriminate.
  - destruct (nonBlank (Part.text p)); [|reflexivity].
    now elim (H1 eq_refl).
Qed.

(** C7, as amended.  The aggregated text is empty exactly when no record
    has text that is non-empty once trimmed: a record whose text is only
    white space is filtered out like one without text. *)
Theorem combined_empty_iff_all_blank (parts : list Part.t) :
  combinedOf parts = []
  <-> (forall p, In p parts -> trim (Part.text p) = []).
Proof.
  unfold combinedOf. split.
  - intros H p Hin. apply retained_false_iff.
    destruct (retained p) eqn:R; [|reflexivity].
    apply join_nil_inv in H.
    + assert (Hs : In (segment p) (map segment (filter retained parts)))
        by (apply in_map, filter_In; now split).
      rewrite H in Hs. destruct Hs.
    + apply Forall_forall. intros x Hx. apply in_map_iff in Hx as (q & <- & _).
      apply segment_not_nil.
  - intros H.
    replace (filter retained parts) with (@nil Part.t); [reflexivity|].
    symmetry. induction parts as [|p parts IH]; [reflexivity|].
    simpl. rewrite (proj2 (retained_false_iff p) (H p (or_introl eq_refl))).
    apply IH. intros q Hq. apply H. now right.
Qed.

(** The record of [blank.txt] has the non-empty text [" "], and the
    aggregated text is empty. *)
Lemma blank_text_yields_empty_context :
  partsOf offlineEnv [blankFile]
  = [Part.mk (js "blank.txt") (js "txt") (js " ") 1 None]
  /\ combinedOf (partsOf offlineEnv [blankFile]) = []
  /\ ~ (combinedOf (partsOf offlineEnv [blankFile]) = []
        <-> (forall p, In p (partsOf offlineEnv [blankFile]) ->
                       Part.text p = [])).
Proof.
  split; [reflexivity|]. split; [reflexivity|].
  intros [H _]. specialize (H eq_refl _ (or_introl eq_refl)).
  discriminate H.
Qed.

(** ** Image files and the prompt *)

Lemma isImageExt_cases (ext : jsstring) :
  isImageExt ext = true -> In ext imageExts.
Proof.
  unfold isImageExt. rewrite existsb_exists.
  intros (x & Hin & E). apply jseqb_eq in E. now subst.
Qed.

Lemma fileStep_image env f (b : Buffer) :
  isImageExt (fileExt env f) = true ->
  UploadedFile.buffer f = Some b ->
  fileStep env f []
  = ([], (Part.mk (fileName f) (fileExt env f) (imageMarker (fileName f))
                  (fileSize f) None,
          [ImagePart.mk (fileName f)
                        (orElse (lookup (fileExt env f) mimeTypes)
                                (js "image/jpeg"))
                        (toStringBase64 b)])).
Proof.
  intros Himg Hbuf. unfold fileStep, extractFile.
  rewrite Himg.
  assert (H : jseqb (fileExt env f) (js "pdf") = false
              /\ jseqb (fileExt env f) (js "docx") = false
              /\ jseqb (fileExt env f) (js "xlsx") = false
              /\ jseqb (fileExt env f) (js "txt") = false
              /\ jseqb (fileExt env f) (js "html") = false).
  { apply isImageExt_cases in Himg.
    repeat (destruct Himg as [<-|Himg]; [repeat split|]).
    destruct Himg. }
  destruct H as (-> & -> & -> & -> & ->). cbn [orb].
  destruct (UploadedFile.buffer f) as [b'|]; [|discriminate Hbuf].
  injection Hbuf as ->. reflexivity.
Qed.

(** An iteration adds an image part only together with the marker text. *)
Lemma pushedBy_marker env f :
  pushedBy env f <> [] ->
  Part.text (recordOf env f) = imageMarker (fileName f).
Proof.
  unfold pushedBy, recordOf, fileStep, extractFile.
  destruct (jseqb _ (js "pdf")).
  { destruct (extractTextFromPdf env (UploadedFile.buffer f)) as [t [r|m]];
      unfold bind; [|intros H; now elim H].
    destruct (PdfResult.isScanned r); intros H; now elim H. }
  destruct (jseqb _ (js "docx")).
  { unfold call, bind.
    destruct (mammothExtractRawText env _); intros H; now elim H. }
  destruct (jseqb _ (js "xlsx")).
  { unfold call, bind.
    destruct (xlsxSheetsToCsv env _); intros H; now elim H. }
  destruct (_ || _).
  { destruct (UploadedFile.buffer f) as [[|b0 b]|]; intros H; now elim H. }
  destruct (isImageExt _).
  { destruct (UploadedFile.buffer f) as [b|]; intros H;
      [reflexivity | now elim H]. }
  intros H; now elim H.
Qed.

Lemma trimStart_last (l : jsstring) (c : N) :
  isWhite c = false -> trimStart (l ++ [c]) <> [].
Proof.
  intros Hc. induction l as [|x l IH]; simpl.
  - rewrite Hc. discriminate.
  - destruct (isWhite x); [exact IH | discriminate].
Qed.

Lemma trim_head (c : N) (s : jsstring) :
  isWhite c = false -> trim (c :: s) <> [].
Proof.
  intros Hc. unfold trim. cbn [trimStart]. rewrite Hc. cbn [rev].
  intros H. apply (f_equal (@List.length N)) in H.
  rewrite length_rev in H.
  destruct (trimStart (rev s ++ [c])) eqn:E; [|discriminate H].
  now apply (trimStart_last (rev s) c Hc).
Qed.

Lemma imageMarker_retained (name : jsstring) :
  nonBlank (imageMarker name) = true.
Proof. apply nonBlank_spec. now apply trim_head. Qed.

Lemma combinedOf_head (parts : list Part.t) (p : Part.t) :
  In p parts -> retained p = true ->
  exists rest, combinedOf parts = 45 :: rest.
Proof.
  intros Hin Hret. unfold combinedOf.
  assert (H : In p (filter retained parts)) by (apply filter_In; now split).
  destruct (filter retained parts) as [|q [|q' qs]]; [destruct H| |];
    eexists; reflexivity.
Qed.

Lemma promptMode_text (combined : jsstring) (imageParts : list ImagePart.t) :
  trim combined <> [] -> promptMode combined imageParts <> ImageOnly.
Proof.
  intros H. unfold promptMode.
  destruct (trim combined) as [|c s]; [now elim H|].
  cbn [truthy negb andb].
  destruct (negb (List.length imageParts =? 0)%nat); discriminate.
Qed.

(** The branch for uploads that consist of images only is never taken:
    an image part is collected only together with a marker text, which the
    aggregated text then contains. *)
Lemma image_only_unreachable (env : Env) (files : list UploadedFile.t) :
  promptMode (combinedOf (partsOf env files)) (imagePartsOf env files)
  <> ImageOnly.
Proof.
  destruct (imagePartsOf env files) as [|img imgs] eqn:E.
  - unfold promptMode. cbn [List.length Nat.eqb negb andb].
    destruct (truthy _); discriminate.
  - rewrite <- E. apply promptMode_text.
    assert (H : exists f, In f files /\ pushedBy env f <> []).
    { rewrite imagePartsOf_flat in E. clear -E.
      induction files as [|f rest IH]; [discriminate E|].
      simpl in E. destruct (pushedBy env f) as [|i l] eqn:P.
      - destruct (IH E) as (g & Hg & Hp). exists g. split; [now right|exact Hp].
      - exists f. split; [now left|]. rewrite P. discriminate. }
    destruct H as (f & Hin & Hp).
    destruct (combinedOf_head (partsOf env files) (recordOf env f))
      as [rest Hc].
    + rewrite partsOf_map. now apply in_map.
    + unfold retained. rewrite (pushedBy_marker env f Hp).
      apply imageMarker_retained.
    + rewrite Hc. now apply trim_head.
Qed.

Lemma fileStep_image_without_buffer env f :
  isImageExt (fileExt env f) = true ->
  UploadedFile.buffer f = None ->
  fileStep env f []
  = ([], (Part.mk (fileName f) (fileExt env f) [] 0
                  (Some (js "Cannot read properties of undefined (reading 'toString')")),
          [])).
Proof.
  intros Himg Hbuf. unfold fileStep, extractFile, fileSize.
  rewrite Himg, Hbuf.
  assert (H : jseqb (fileExt env f) (js "pdf") = false
              /\ jseqb (fileExt env f) (js "docx") = false
              /\ jseqb (fileExt env f) (js "xlsx") = false
              /\ jseqb (fileExt env f) (js "txt") = false
              /\ jseqb (fileExt env f) (js "html") = false).
  { apply isImageExt_cases in Himg.
    repeat (destruct Himg as [<-|Himg]; [repeat split|]).
    destruct Himg. }
  destruct H as (-> & -> & -> & -> & ->). reflexivity.
Qed.

(** C10, as amended.  An uploaded file that is classified as an image and
    carries a buffer gets the marker as the text of its record, without an
    error, and adds one image part, so the aggregated text is not empty,
    also once trimmed.  An image file without a buffer raises inside the
    [try] block of its iteration: it is recorded with an error and empty
    text, is not retained for the aggregated text, and adds no image part.
    In no invocation is the prompt for uploads of images only selected. *)
Theorem image_marker_keeps_context_nonempty
    (env : Env) (files : list UploadedFile.t) (f : UploadedFile.t) :
  In f files ->
  isImageExt (fileExt env f) = true ->
  match UploadedFile.buffer f with
  | Some b =>
      Part.text (recordOf env f) = imageMarker (fileName f)
      /\ Part.text (recordOf env f) <> []
      /\ Part.error (recordOf env f) = None
      /\ pushedBy env f = [imagePartOf env f b]
      /\ combinedOf (partsOf env files) <> []
      /\ trim (combinedOf (partsOf env files)) <> []
  | None =>
      Part.text (recordOf env f) = []
      /\ Part.error (recordOf env f)
         = Some (js "Cannot read properties of undefined (reading 'toString')")
      /\ FileEntry.error (fileEntry (recordOf env f))
         = Some (js "Cannot read properties of undefined (reading 'toString')")
      /\ FileEntry.textLength (fileEntry (recordOf env f)) = 0
      /\ retained (recordOf env f) = false
      /\ pushedBy env f = []
  end
  /\ (forall files',
        promptMode (combinedOf (partsOf env files'))
                   (imagePartsOf env files') <> ImageOnly).
Proof.
  intros Hin Himg.
  split; [|intros files'; apply image_only_unreachable].
  destruct (UploadedFile.buffer f) as [b|] eqn:Hbuf.
  - pose proof (fileStep_image env f b Himg Hbuf) as Hstep.
    assert (Ht : Part.text (recordOf env f) = imageMarker (fileName f))
      by (unfold recordOf; now rewrite Hstep).
    destruct (combinedOf_head (partsOf env files) (recordOf env f))
      as [rest Hc].
    { rewrite partsOf_map. now apply in_map. }
    { unfold retained. rewrite Ht. apply imageMarker_retained. }
    split; [exact Ht|]. split; [rewrite Ht; discriminate|].
    split; [unfold recordOf; now rewrite Hstep|].
    split; [unfold pushedBy; now rewrite Hstep|].
    split; [rewrite Hc; discriminate|].
    rewrite Hc; now apply trim_head.
  - pose proof (fileStep_image_without_buffer env f Himg Hbuf) as Hstep.
    unfold recordOf, pushedBy. rewrite Hstep. repeat split.
Qed.

Lemma image_marker_keeps_context_nonempty_witness :
  In pngFile [helloFile; pngFile]
  /\ isImageExt (fileExt offlineEnv pngFile) = true
  /\ UploadedFile.buffer pngFile = Some (bytesOf "hello")
  /\ Part.text (recordOf offlineEnv pngFile)
     = js "[Image: pic.png - will be analyzed by AI vision]"
  /\ combinedOf (partsOf offlineEnv [helloFile; pngFile]) <> []
  /\ In jpgWithoutBuffer [jpgWithoutBuffer]
  /\ isImageExt (fileExt offlineEnv jpgWithoutBuffer) = true
  /\ Part.text (recordOf offlineEnv jpgWithoutBuffer) = []
  /\ pushedBy offlineEnv jpgWithoutBuffer = [].
Proof.
  assert (Hin : In pngFile [helloFile; pngFile]) by (right; left; reflexivity).
  assert (Himg : isImageExt (fileExt offlineEnv pngFile) = true)
    by reflexivity.
  assert (Hin' : In jpgWithoutBuffer [jpgWithoutBuffer])
    by (left; reflexivity).
  assert (Himg' : isImageExt (fileExt offlineEnv jpgWithoutBuffer) = true)
    by reflexivity.
  pose proof (image_marker_keeps_context_nonempty
                offlineEnv [helloFile; pngFile] pngFile Hin Himg) as [P _].
  pose proof (image_marker_keeps_context_nonempty
                offlineEnv [jpgWithoutBuffer] jpgWithoutBuffer Hin' Himg')
    as [Q _].
  change (UploadedFile.buffer pngFile) with (Some (bytesOf "hello")) in P.
  change (UploadedFile.buffer jpgWithoutBuffer) with (@None Buffer) in Q.
  cbv iota beta in P, Q.
  destruct P as (T & _ & _ & _ & C & _).
  destruct Q as (T' & _ & _ & _ & _ & I').
  repeat split; assumption.
Defined.

(** An image file without a buffer: the conversion raises inside the
    [try] block, the record has an error and empty text, no image part is
    collected and the aggregated text is empty. *)
Lemma image_without_buffer_has_no_marker :
  isImageExt (fileExt offlineEnv jpgWithoutBuffer) = true
  /\ partsOf offlineEnv [jpgWithoutBuffer]
     = [Part.mk (js "a.jpg") (js "jpg") [] 0
          (Some (js "Cannot read properties of undefined (reading 'toString')"))]
  /\ imagePartsOf offlineEnv [jpgWithoutBuffer] = []
  /\ combinedOf (partsOf offlineEnv [jpgWithoutBuffer]) = [].
Proof. repeat split. Qed.

(* ------------------------------------------------------------------ *)
(** * Further properties of the controller *)

(** ** The loop over the files *)

(** X1.  The loop treats every file on its own: the records, the image
    parts and the calls of an upload that is the concatenation of two
    lists are the concatenations of those of the two lists. *)
Theorem loop_is_compositional (env : Env) (xs ys : list UploadedFile.t) :
  partsOf env (xs ++ ys) = partsOf env xs ++ partsOf env ys
  /\ imagePartsOf env (xs ++ ys) = imagePartsOf env xs ++ imagePartsOf env ys
  /\ loopTrace env (xs ++ ys) = loopTrace env xs ++ loopTrace env ys.
Proof.
  rewrite !partsOf_map, !imagePartsOf_flat, !loopTrace_flat.
  now rewrite map_app, !flat_map_app.
Qed.

Lemma image_ext_not_document (ext : jsstring) :
  isImageExt ext = true ->
  jseqb ext (js "pdf") = false
  /\ jseqb ext (js "docx") = false
  /\ jseqb ext (js "xlsx") = false
  /\ jseqb ext (js "txt") = false
  /\ jseqb ext (js "html") = false.
Proof.
  intros H. apply isImageExt_cases in H.
  repeat (destruct H as [<-|H]; [repeat split|]).
  destruct H.
Qed.

Lemma pushedBy_cases env f :
  pushedBy env f
  = if isImageExt (fileExt env f) then
      match UploadedFile.buffer f with
      | Some b => [imagePartOf env f b]
      | None => []
      end
    else [].
Proof.
  destruct (isImageExt (fileExt env f)) eqn:Himg.
  - destruct (UploadedFile.buffer f) as [b|] eqn:Hbuf.
    + unfold pushedBy. now rewrite (fileStep_image env f b Himg Hbuf).
    + unfold pushedBy, fileStep, extractFile. rewrite Himg, Hbuf.
      destruct (image_ext_not_document _ Himg) as (-> & -> & -> & -> & ->).
      reflexivity.
  - unfold pushedBy, fileStep, extractFile. rewrite Himg.
    destruct (jseqb _ (js "pdf")).
    { destruct (extractTextFromPdf env (UploadedFile.buffer f)) as [t [r|m]];
        unfold bind; [|reflexivity].
      destruct (PdfResult.isScanned r); reflexivity. }
    destruct (jseqb _ (js "docx")).
    { unfold call, bind.
      destruct (mammothExtractRawText env _); reflexivity. }
    destruct (jseqb _ (js "xlsx")).
    { unfold call, bind.
      destruct (xlsxSheetsToCsv env _); reflexivity. }
    destruct (_ || _).
    { destruct (UploadedFile.buffer f) as [[|b0 b]|]; reflexivity. }
    reflexivity.
Qed.

(** X2.  Image parts are collected for the image files that carry a
    buffer, one each and in the order of the upload, and for no other
    file: their names are the names of those files. *)
Theorem image_parts_follow_image_files (env : Env)
    (files : list UploadedFile.t) :
  map ImagePart.name (imagePartsOf env files)
  = map fileName
        (filter (fun f => isImageExt (fileExt env f) && hasBuffer f) files)
  /\ (List.length (imagePartsOf env files) <= List.length files)%nat.
Proof.
  rewrite imagePartsOf_flat.
  induction files as [|f rest [IH1 IH2]]; [split; [reflexivity | apply Nat.le_refl]|].
  cbn [flat_map filter]. rewrite map_app, length_app, IH1, pushedBy_cases.
  unfold hasBuffer.
  destruct (isImageExt (fileExt env f));
    destruct (UploadedFile.buffer f) as [b|]; cbn [andb map app List.length];
    split; try reflexivity; lia.
Qed.

(** X3.  A record never has both a text and an error: whenever the
    extraction of a file records an error, the text of the record is
    empty, and so is [textLength] in the response. *)
Theorem record_text_or_error (env : Env) (f : UploadedFile.t) :
  (Part.text (recordOf env f) = [] \/ Part.error (recordOf env f) = None)
  /\ (FileEntry.textLength (fileEntry (recordOf env f)) = 0
      \/ FileEntry.error (fileEntry (recordOf env f)) = None).
Proof.
  assert (H : Part.text (recordOf env f) = []
              \/ Part.error (recordOf env f) = None);
    [|split; [exact H|];
      destruct H as [H|H]; [left | right]; unfold fileEntry; simpl;
      now rewrite H].
  unfold recordOf, fileStep, extractFile.
  destruct (jseqb _ (js "pdf")).
  { unfold extractTextFromPdf.
    destruct (UploadedFile.buffer f) as [[|b0 b]|]; try (left; reflexivity).
    destruct (negb _); [left; reflexivity|].
    unfold call, bind, tryCatch.
    destruct (pdfParse env (b0 :: b)) as [data|m]; [|left; reflexivity].
    destruct (extractedLength data =? 0); [left | right]; reflexivity. }
  destruct (jseqb _ (js "docx")).
  { unfold call, bind.
    destruct (mammothExtractRawText env _); [right | left]; reflexivity. }
  destruct (jseqb _ (js "xlsx")).
  { unfold call, bind.
    destruct (xlsxSheetsToCsv env _); [right | left]; reflexivity. }
  destruct (_ || _).
  { destruct (UploadedFile.buffer f) as [[|b0 b]|];
      [left | right | left]; reflexivity. }
  destruct (isImageExt _).
  { destruct (UploadedFile.buffer f) as [b|]; [right | left]; reflexivity. }
  right; reflexivity.
Qed.

(** ** The replies *)

Lemma filter_none {A} (p : A -> bool) (l : list A) :
  existsb p l = false -> filter p l = [].
Proof.
  induction l as [|a l IH]; simpl; [reflexivity|].
  destruct (p a); simpl; [discriminate | exact IH].
Qed.

(** X4.  The request is rejected with status 400 exactly when no file is
    uploaded ([req.files] missing or empty), and a rejected request calls
    no library and no service. *)
Theorem rejected_iff_no_file (env : Env) (req : Request.t) :
  (snd (askWithFiles env req) = Status400 (js "No files uploaded")
   <-> filesOf req = [])
  /\ (forall message, snd (askWithFiles env req) = Status400 message ->
                      fst (askWithFiles env req) = []).
Proof.
  split; [split|].
  - intros E. pose proof (askWithFiles_reply env req) as H.
    now rewrite E in H.
  - intros E. rewrite askWithFiles_unfold, E. reflexivity.
  - intros message E. pose proof (askWithFiles_reply env req) as H.
    rewrite E in H. rewrite askWithFiles_unfold, H. reflexivity.
Qed.

(** X5.  The answering service is called at most once per request, and it
    is called exactly when a credential is configured, at least one file is
    uploaded, and there is content: some trimmed text or some image. *)
Theorem answering_service_called_iff (env : Env) (req : Request.t) :
  geminiCalls (fst (askWithFiles env req))
  = if truthy (GEMINI_API_KEY env)
       && negb (Nat.eqb (List.length (filesOf req)) 0)
       && hasContent env (filesOf req)
    then 1%nat else 0%nat.
Proof.
  unfold geminiCalls. rewrite askWithFiles_unfold.
  destruct (filesOf req) as [|f rest] eqn:Hf.
  - now rewrite andb_false_r.
  - cbv zeta. rewrite <- Hf.
    replace (negb (List.length (filesOf req) =? 0)%nat) with true
      by now rewrite Hf.
    rewrite andb_true_r.
    pose proof (filter_none _ _ (loopTrace_no_gemini env (filesOf req))) as L.
    destruct (GEMINI_API_KEY env) as [[|c k]|]; cbn [truthy andb fst];
      try exact (f_equal (@List.length Event) L).
    destruct (hasContent env (filesOf req));
      [|exact (f_equal (@List.length Event) L)].
    destruct (axiosPost env _ _); cbn [fst];
      now rewrite filter_app, L.
Qed.

(** X6.  When the answering service is called, its reply decides the
    outcome: if the call fails the whole request is answered with status
    500, the fixed error text and the message of the failure; if it
    succeeds the reply is the response with the same extracted text and
    file entries, no [error] field, and as answer the text of the first
    part of the first candidate, or null when there is none. *)
Theorem answering_service_outcome
    (env : Env) (req : Request.t) (key : jsstring) :
  GEMINI_API_KEY env = Some key ->
  key <> [] ->
  filesOf req <> [] ->
  hasContent env (filesOf req) = true ->
  fst (askWithFiles env req)
  = loopTrace env (filesOf req)
    ++ [CallGemini (endpointOf env key) (requestBody env req)]
  /\ match axiosPost env (endpointOf env key) (requestBody env req) with
     | Throw message =>
         snd (askWithFiles env req)
         = Status500 (js "Failed to process files") message
     | Ret data =>
         snd (askWithFiles env req)
         = Json200 (Response.mk (combinedOf (partsOf env (filesOf req)))
                                (textResp data)
                                (map fileEntry (partsOf env (filesOf req)))
                                None)
     end.
Proof.
  intros Hkey Hk Hfiles Hcontent. rewrite askWithFiles_unfold.
  destruct (filesOf req) as [|f rest] eqn:Hf; [now elim Hfiles|].
  cbv zeta. rewrite <- Hf in *. rewrite Hkey.
  destruct key as [|c k]; [now elim Hk|]. rewrite Hcontent.
  destruct (axiosPost env _ _); split; reflexivity.
Qed.

Lemma answering_service_outcome_witness :
  GEMINI_API_KEY answeringEnv = Some (js "secret")
  /\ hasContent answeringEnv [helloFile] = true
  /\ snd (askWithFiles answeringEnv helloRequest)
     = Json200 (Response.mk
                  (js "--- file.txt (txt) ---" ++ nl ++ js "hello world")
                  (Some (js "42"))
                  [FileEntry.mk (js "file.txt") (js "txt") 11 11 None]
                  None)
  /\ snd (askWithFiles keyedEnv helloRequest)
     = Status500 (js "Failed to process files")
                 (js "Request failed with status code 503").
Proof.
  split; [reflexivity|]. split; [reflexivity|].
  destruct (answering_service_outcome answeringEnv helloRequest (js "secret"))
    as [_ A]; try reflexivity; try discriminate.
  destruct (answering_service_outcome keyedEnv helloRequest (js "secret"))
    as [_ B]; try reflexivity; try discriminate.
  split; [exact A | exact B].
Defined.

(** X7.  The extracted text and the file entries of a reply with status
    200 do not depend on the credential or on the answering service: they
    are always the aggregated text and the summaries of the records. *)
Theorem reply_extraction_is_independent
    (env : Env) (req : Request.t) (trace : list Event) (r : Response.t) :
  askWithFiles env req = (trace, Json200 r) ->
  Response.extracted r = combinedOf (partsOf env (filesOf req))
  /\ Response.files r = map fileEntry (partsOf env (filesOf req))
  /\ (Response.error r = None
      \/ Response.answer r
         = Some (diagnosticAnswer (partsOf env (filesOf req)))).
Proof.
  rewrite askWithFiles_unfold.
  destruct (filesOf req) as [|f rest] eqn:Hf; [discriminate|].
  cbv zeta. rewrite <- Hf.
  destruct (GEMINI_API_KEY env) as [[|c k]|];
    try (intros E; injection E as _ <-; repeat split; now left).
  destruct (hasContent env (filesOf req)).
  - destruct (axiosPost env _ _); [|discriminate].
    intros E; injection E as _ <-; repeat split; now left.
  - intros E; injection E as _ <-; repeat split; now right.
Qed.

Lemma reply_extraction_is_independent_witness :
  askWithFiles offlineEnv helloRequest = ([], Json200 helloResponse)
  /\ Response.extracted helloResponse
     = combinedOf (partsOf offlineEnv (filesOf helloRequest))
  /\ Response.files helloResponse
     = map fileEntry (partsOf offlineEnv (filesOf helloRequest)).
Proof.
  assert (E : askWithFiles offlineEnv helloRequest = ([], Json200 helloResponse))
    by reflexivity.
  destruct (reply_extraction_is_independent _ _ _ _ E) as (A & B & _).
  repeat split; assumption.
Defined.

(** ** Content and the prompt *)

Lemma combinedOf_blank (parts : list Part.t) :
  (forall p, In p parts -> trim (Part.text p) = []) -> combinedOf parts = [].
Proof.
  intros H. unfold combinedOf.
  replace (filter retained parts) with (@nil Part.t); [reflexivity|].
  symmetry. induction parts as [|p parts IH]; [reflexivity|].
  simpl. rewrite (proj2 (retained_false_iff p) (H p (or_introl eq_refl))).
  apply IH. intros q Hq. apply H. now right.
Qed.

Lemma images_imply_text (env : Env) (files : list UploadedFile.t) :
  imagePartsOf env files <> [] ->
  trim (combinedOf (partsOf env files)) <> [].
Proof.
  intros Himg Ht. apply (image_only_unreachable env files).
  unfold promptMode. rewrite Ht.
  destruct (imagePartsOf env files); [now elim Himg | reflexivity].
Qed.

Lemma hasContent_text (env : Env) (files : list UploadedFile.t) :
  hasContent env files = true <-> trim (combinedOf (partsOf env files)) <> [].
Proof.
  unfold hasContent. split.
  - intros H Ht. rewrite Ht in H. cbn [List.length Nat.eqb negb orb] in H.
    destruct (imagePartsOf env files) as [|i l] eqn:E; [discriminate H|].
    apply (images_imply_text env files); [rewrite E; discriminate | exact Ht].
  - intros H. destruct (trim (combinedOf (partsOf env files)));
      [now elim H | reflexivity].
Qed.

(** X8.  There is content exactly when some record has text that is not
    blank: an upload in which every record is empty or white space, images
    included, has no content, and any record with visible text gives
    content whatever the other files are. *)
Theorem content_iff_some_visible_text (env : Env)
    (files : list UploadedFile.t) :
  hasContent env files = false
  <-> (forall f, In f files -> trim (Part.text (recordOf env f)) = []).
Proof.
  split.
  - intros H f Hin.
    destruct (retained (recordOf env f)) eqn:R;
      [|now apply retained_false_iff].
    destruct (combinedOf_head (partsOf env files) (recordOf env f))
      as [rest Hc]; [rewrite partsOf_map; now apply in_map | exact R |].
    assert (T : hasContent env files = true).
    { apply hasContent_text. rewrite Hc. now apply trim_head. }
    rewrite T in H. discriminate H.
  - intros H. destruct (hasContent env files) eqn:C; [|reflexivity].
    apply hasContent_text in C. elim C.
    rewrite combinedOf_blank; [reflexivity|].
    intros p Hp. rewrite partsOf_map in Hp.
    apply in_map_iff in Hp as (f & <- & Hf). now apply H.
Qed.

(** X9.  Whenever there is content, the prompt frames the aggregated
    text: it is the text-only prompt when no image part was collected and
    the mixed prompt otherwise, it contains the aggregated text verbatim
    and then the question. *)
Theorem prompt_frames_the_text (env : Env) (files : list UploadedFile.t)
    (question : jsstring) :
  hasContent env files = true ->
  let combined := combinedOf (partsOf env files) in
  let images := imagePartsOf env files in
  (promptMode combined images = TextOnly /\ images = []
   \/ promptMode combined images = Mixed /\ images <> [])
  /\ exists before between after,
       promptText combined images question
       = before ++ combined ++ between ++ js "Question: " ++ question ++ after.
Proof.
  intros H. cbv zeta. apply hasContent_text in H.
  assert (M : promptMode (combinedOf (partsOf env files))
                         (imagePartsOf env files) = TextOnly
              /\ imagePartsOf env files = []
              \/ promptMode (combinedOf (partsOf env files))
                            (imagePartsOf env files) = Mixed
                 /\ imagePartsOf env files <> []).
  { unfold promptMode.
    destruct (trim (combinedOf (partsOf env files))); [now elim H|].
    destruct (imagePartsOf env files); [left | right]; split;
      try reflexivity. discriminate. }
  split; [exact M|].
  unfold promptText.
  destruct M as [[-> _]|[-> _]].
  - match goal with
    | |- context [(?a ++ nl ++ nl ++ ?c ++ nl ++ nl) ++ ?q ++ question ++ ?z] =>
        exists (a ++ nl ++ nl), (nl ++ nl), z
    end.
    now rewrite <- !app_assoc.
  - match goal with
    | |- context [(?a ++ nl ++ nl ++ ?c ++ nl ++ nl ++ ?d) ++ ?q ++ question ++ ?z] =>
        exists (a ++ nl ++ nl), (nl ++ nl ++ d), z
    end.
    now rewrite <- !app_assoc.
Qed.

Lemma prompt_frames_the_text_witness :
  hasContent offlineEnv [helloFile; pngFile] = true
  /\ promptMode (combinedOf (partsOf offlineEnv [helloFile; pngFile]))
                (imagePartsOf offlineEnv [helloFile; pngFile]) = Mixed
  /\ promptMode (combinedOf (partsOf offlineEnv [helloFile]))
                (imagePartsOf offlineEnv [helloFile]) = TextOnly.
Proof.
  split; [reflexivity|].
  destruct (prompt_frames_the_text offlineEnv [helloFile; pngFile] (js "q")
              eq_refl) as [[[_ E]|[M _]] _]; [discriminate E|].
  destruct (prompt_frames_the_text offlineEnv [helloFile] (js "q")
              eq_refl) as [[[T _]|[_ E]] _]; [|now elim E].
  split; assumption.
Defined.

(** ** Names, extensions and MIME types *)

(** X10.  Every extension that is classified as an image has an entry in
    the table of MIME types, and it is an [image/] type: the default
    [image/jpeg] next to the lookup is never used. *)
Theorem image_ext_has_mime_type (ext : jsstring) :
  isImageExt ext = true ->
  exists mime,
    lookup ext mimeTypes = Some mime
    /\ startsWith mime (js "image/") = true
    /\ orElse (lookup ext mimeTypes) (js "image/jpeg") = mime.
Proof.
  intros H. apply isImageExt_cases in H.
  repeat (destruct H as [<-|H]; [eexists; repeat split|]).
  destruct H.
Qed.

Lemma image_ext_has_mime_type_witness :
  isImageExt (js "tiff") = true
  /\ lookup (js "tiff") mimeTypes = Some (js "image/tiff").
Proof.
  split; [reflexivity|].
  destruct (image_ext_has_mime_type (js "tiff") eq_refl) as (m & L & _ & _).
  rewrite L. f_equal. now injection L.
Defined.

Lemma lastSegment_spec (s : jsstring) : forall acc,
  ~ In 46 acc ->
  ~ In 46 (lastSegment acc s)
  /\ ((~ In 46 s /\ lastSegment acc s = acc ++ s)
      \/ exists before, s = before ++ 46 :: lastSegment acc s).
Proof.
  induction s as [|c s IH]; intros acc Hacc; cbn [lastSegment].
  - split; [exact Hacc|]. left. split; [intros []|now rewrite app_nil_r].
  - destruct (c =? 46) eqn:E.
    + apply N.eqb_eq in E. subst c.
      destruct (IH [] (fun H => H)) as [Hno [[Hs Heq]|[before Hb]]].
      * split; [exact Hno|]. right. exists []. simpl. now rewrite Heq.
      * split; [exact Hno|]. right. exists (46 :: before). simpl.
        now rewrite <- Hb.
    + apply N.eqb_neq in E.
      assert (Hacc' : ~ In 46 (acc ++ [c])).
      { intros H. apply in_app_or in H as [H|[H|[]]]; [now apply Hacc|].
        now apply E. }
      destruct (IH (acc ++ [c]) Hacc') as [Hno [[Hs Heq]|[before Hb]]].
      * split; [exact Hno|]. left. split.
        -- intros [H|H]; [now apply E | now apply Hs].
        -- now rewrite Heq, <- app_assoc.
      * split; [exact Hno|]. right. exists (c :: before). simpl.
        now rewrite <- Hb.
Qed.

(** X11.  The extension taken from a name is what follows its last dot:
    it contains no dot, and either the name has no dot at all and the whole
    name is taken (a file called [pdf] is treated as a PDF), or the name is
    some prefix, a dot, and the extension. *)
Theorem extension_follows_last_dot (name : jsstring) :
  let ext := lastSegment [] name in
  ~ In 46 ext
  /\ ((~ In 46 name /\ ext = name)
      \/ exists before, name = before ++ js "." ++ ext).
Proof.
  cbv zeta. destruct (lastSegment_spec name [] (fun H => H)) as [H1 H2].
  split; [exact H1|]. exact H2.
Qed.

Lemma lowerAscii_dot (c : N) : (lowerAscii c =? 46) = (c =? 46).
Proof.
  unfold lowerAscii.
  destruct ((65 <=? c) && (c <=? 90)) eqn:E; [|reflexivity].
  apply andb_true_iff in E as [E1 E2].
  apply N.leb_le in E1. apply N.leb_le in E2.
  transitivity false; [apply N.eqb_neq | symmetry; apply N.eqb_neq]; lia.
Qed.

Lemma lowerAscii_idem (c : N) : lowerAscii (lowerAscii c) = lowerAscii c.
Proof.
  unfold lowerAscii.
  destruct ((65 <=? c) && (c <=? 90)) eqn:E; [|now rewrite E].
  apply andb_true_iff in E as [E1 E2].
  apply N.leb_le in E1. apply N.leb_le in E2.
  replace ((65 <=? c + 32) && (c + 32 <=? 90)) with false; [reflexivity|].
  symmetry. apply andb_false_iff. right. apply N.leb_gt. lia.
Qed.

Lemma lowerAscii_ascii (c : N) : (lowerAscii c <? 128) = (c <? 128).
Proof.
  unfold lowerAscii.
  destruct ((65 <=? c) && (c <=? 90)) eqn:E; [|reflexivity].
  apply andb_true_iff in E as [E1 E2].
  apply N.leb_le in E1. apply N.leb_le in E2.
  transitivity true; [apply N.ltb_lt | symmetry; apply N.ltb_lt]; lia.
Qed.

Lemma lastSegment_lower (s : jsstring) : forall acc,
  lastSegment (map lowerAscii acc) (map lowerAscii s)
  = map lowerAscii (lastSegment acc s).
Proof.
  induction s as [|c s IH]; intros acc; cbn [map lastSegment];
    [reflexivity|].
  rewrite lowerAscii_dot. destruct (c =? 46).
  - apply (IH []).
  - rewrite <- IH, map_app. reflexivity.
Qed.

Lemma lastSegment_lower_nil (s : jsstring) :
  lastSegment [] (map lowerAscii s) = map lowerAscii (lastSegment [] s).
Proof. exact (lastSegment_lower s []). Qed.

Lemma lastSegment_ascii (s : jsstring) : forall acc,
  isAscii acc = true -> isAscii s = true ->
  isAscii (lastSegment acc s) = true.
Proof.
  unfold isAscii.
  induction s as [|c s IH]; intros acc Hacc Hs; cbn [lastSegment];
    [exact Hacc|].
  cbn [forallb] in Hs. apply andb_true_iff in Hs as [Hc Hs].
  destruct (c =? 46); [now apply IH|].
  apply IH; [|exact Hs]. rewrite forallb_app, Hacc. cbn. now rewrite Hc.
Qed.

Lemma isAscii_lower (s : jsstring) :
  isAscii (map lowerAscii s) = isAscii s.
Proof.
  unfold isAscii. induction s as [|c s IH]; [reflexivity|].
  cbn [map forallb]. now rewrite lowerAscii_ascii, IH.
Qed.

(** X12.  The classification by extension does not depend on the case of
    ASCII letters: for a non-empty ASCII name, the upload whose name is
    written in lower case has the same extension as the upload with the
    original name, and that extension has no upper-case ASCII letter. *)
Theorem extension_ignores_ascii_case (env : Env) (name : jsstring)
    (other : option jsstring) (buffer : option Buffer) :
  name <> [] ->
  isAscii name = true ->
  let original := UploadedFile.mk (Some name) other buffer in
  let lowered := UploadedFile.mk (Some (map lowerAscii name)) other buffer in
  fileExt env lowered = fileExt env original
  /\ map lowerAscii (fileExt env original) = fileExt env original.
Proof.
  intros Hne Hname. cbv zeta. unfold fileExt, fileName, toLowerCase.
  cbn [UploadedFile.originalname UploadedFile.filename].
  destruct name as [|c s]; [now elim Hne|].
  cbn [map orElse].
  change (lowerAscii c :: map lowerAscii s) with (map lowerAscii (c :: s)).
  rewrite (lastSegment_lower_nil (c :: s)), isAscii_lower.
  rewrite (lastSegment_ascii (c :: s) [] eq_refl Hname).
  split; rewrite map_map; apply map_ext; intros a; apply lowerAscii_idem.
Qed.

Lemma extension_ignores_ascii_case_witness :
  js "Scan.PDF" <> []
  /\ isAscii (js "Scan.PDF") = true
  /\ fileExt offlineEnv (UploadedFile.mk (Some (js "scan.pdf")) None None)
     = fileExt offlineEnv (UploadedFile.mk (Some (js "Scan.PDF")) None None)
  /\ fileExt offlineEnv (UploadedFile.mk (Some (js "Scan.PDF")) None None)
     = js "pdf".
Proof.
  assert (N : js "Scan.PDF" <> []) by discriminate.
  destruct (extension_ignores_ascii_case offlineEnv (js "Scan.PDF") None None
              N eq_refl) as [E _].
  split; [exact N|]. split; [reflexivity|]. split; [exact E | reflexivity].
Defined.

(** ** Text files *)

Lemma utf8Lead_budget (n : N) :
  (List.length (fst (utf8Lead n)) + pendingUnits (snd (utf8Lead n)) <= 1)%nat.
Proof.
  unfold utf8Lead.
  destruct (n <? 128); [cbn; lia|].
  destruct ((194 <=? n) && (n <=? 223)); [cbn; lia|].
  destruct ((224 <=? n) && (n <=? 239)); [cbn; lia|].
  destruct ((240 <=? n) && (n <=? 244)); cbn; lia.
Qed.

Lemma utf8Step_budget (st : Utf8State) (n : N) :
  (List.length (fst (utf8Step st n)) + pendingUnits (snd (utf8Step st n))
   <= 1 + pendingUnits st)%nat.
Proof.
  pose proof (utf8Lead_budget n) as L.
  unfold utf8Step, pendingUnits at 2.
  destruct (needed st =? 0); [lia|].
  destruct ((lower st <=? n) && (n <=? upper st)).
  - destruct (needed st =? 1).
    + unfold utf16. destruct (_ <? 65536); cbn; lia.
    + unfold pendingUnits. cbn [fst snd needed List.length].
      destruct (needed st - 1 =? 0); lia.
  - destruct (utf8Lead n) as [out st']. cbn [fst snd List.length] in *. lia.
Qed.

Lemma utf8Go_length (bs : Buffer) : forall st,
  (List.length (utf8Go st bs) <= List.length bs + pendingUnits st)%nat.
Proof.
  induction bs as [|b rest IH]; intros st; cbn [utf8Go List.length].
  - unfold pendingUnits. destruct (needed st =? 0); cbn; lia.
  - pose proof (utf8Step_budget st (Byte.to_N b)) as S.
    destruct (utf8Step st (Byte.to_N b)) as [out st'].
    cbn [fst snd] in S. rewrite length_app. specialize (IH st'). lia.
Qed.

Lemma utf8Go_ascii (bs : Buffer) :
  forallb (fun b => Byte.to_N b <? 128) bs = true ->
  utf8Go utf8Init bs = map Byte.to_N bs.
Proof.
  induction bs as [|b rest IH]; [reflexivity|].
  cbn [forallb]. intros H. apply andb_true_iff in H as [Hb Hrest].
  cbn [utf8Go map]. unfold utf8Step.
  change (needed utf8Init =? 0) with true. cbv iota.
  unfold utf8Lead. rewrite Hb. cbn [app]. now rewrite IH.
Qed.

Lemma fileStep_text env f :
  fileExt env f = js "txt" \/ fileExt env f = js "html" ->
  fileStep env f []
  = match UploadedFile.buffer f with
    | Some (b0 :: b) =>
        ([], (Part.mk (fileName f) (fileExt env f) (toStringUtf8 (b0 :: b))
                      (fileSize f) None, []))
    | _ =>
        ([], (Part.mk (fileName f) (fileExt env f) [] (fileSize f)
                      (Some (js "Empty or invalid buffer for text file")), []))
    end.
Proof.
  intros [E|E]; unfold fileStep, extractFile; rewrite E;
    destruct (UploadedFile.buffer f) as [[|b0 b]|]; reflexivity.
Qed.

(** X13.  A [txt] or [html] file with an empty or missing buffer is
    recorded with the error "Empty or invalid buffer for text file" and no
    text.  Otherwise its text is the UTF-8 decoding of the bytes, without an
    error and without any call; [textLength] never exceeds [size], and
    for a buffer of ASCII bytes the text is the bytes and [textLength]
    equals [size]. *)
Theorem text_file_record (env : Env) (f : UploadedFile.t) :
  fileExt env f = js "txt" \/ fileExt env f = js "html" ->
  stepTrace env f = []
  /\ match UploadedFile.buffer f with
     | Some (b0 :: b) =>
         Part.text (recordOf env f) = toStringUtf8 (b0 :: b)
         /\ Part.error (recordOf env f) = None
         /\ FileEntry.textLength (fileEntry (recordOf env f))
            <= FileEntry.size (fileEntry (recordOf env f))
         /\ (forallb (fun x => Byte.to_N x <? 128) (b0 :: b) = true ->
             Part.text (recordOf env f) = map Byte.to_N (b0 :: b)
             /\ FileEntry.textLength (fileEntry (recordOf env f))
                = FileEntry.size (fileEntry (recordOf env f)))
     | _ =>
         Part.text (recordOf env f) = []
         /\ FileEntry.error (fileEntry (recordOf env f))
            = Some (js "Empty or invalid buffer for text file")
     end.
Proof.
  intros Hext. pose proof (fileStep_text env f Hext) as S.
  unfold stepTrace, recordOf, fileSize in *.
  destruct (UploadedFile.buffer f) as [[|b0 b]|]; rewrite S;
    cbn [fst snd]; split; try reflexivity; try (split; reflexivity).
  cbn [Part.text Part.error fileEntry FileEntry.textLength FileEntry.size
       Part.size].
  split; [reflexivity|]. split; [reflexivity|]. split.
  - pose proof (utf8Go_length (b0 :: b) utf8Init) as L.
    unfold toStringUtf8. unfold pendingUnits in L.
    change (needed utf8Init =? 0) with true in L. cbv iota in L. lia.
  - intros A. unfold toStringUtf8. rewrite (utf8Go_ascii _ A).
    split; [reflexivity|]. now rewrite length_map.
Qed.

Lemma text_file_record_witness :
  fileExt offlineEnv utf8File = js "txt"
  /\ Part.text (recordOf offlineEnv utf8File) = [8364; 33]
  /\ FileEntry.textLength (fileEntry (recordOf offlineEnv utf8File))
     <= FileEntry.size (fileEntry (recordOf offlineEnv utf8File))
  /\ FileEntry.error (fileEntry (recordOf offlineEnv emptyTxt))
     = Some (js "Empty or invalid buffer for text file").
Proof.
  assert (E : fileExt offlineEnv utf8File = js "txt") by reflexivity.
  assert (E' : fileExt offlineEnv emptyTxt = js "txt") by reflexivity.
  destruct (text_file_record offlineEnv utf8File (or_introl E))
    as (_ & T & _ & L & _).
  destruct (text_file_record offlineEnv emptyTxt (or_introl E'))
    as (_ & _ & R).
  split; [exact E|]. split; [rewrite T; reflexivity|].
  split; [exact L | exact R].
Defined.

(** ** The OCR chain, continued *)

(** X14.  When the hosted service answers with a result list whose
    entries are all objects and whose texts, joined by newlines, are not
    blank, the chain returns that joined text after the single call to
    the hosted service; the local engine is not called. *)
Theorem ocr_chain_uses_hosted_text
    (env : Env) (buffer : Buffer) (filename key : jsstring)
    (first : OcrData.ParsedResult)
    (others : list (option OcrData.ParsedResult)) :
  OCR_SPACE_API_KEY env = Some key ->
  key <> [] ->
  fetchOcrSpace env key buffer filename
  = Parsed (Some (OcrData.mk (Some (Some first :: others)))) ->
  ~ In None others ->
  nonBlank (joinOpt nl (parsedTexts (Some first :: others))) = true ->
  extractText env buffer filename
  = ([CallOcrSpace key buffer filename],
     Ret (joinOpt nl (parsedTexts (Some first :: others)))).
Proof.
  intros Hkey Hk Hfetch Hnull Hblank. unfold extractText. rewrite Hkey.
  destruct key as [|c k]; [now elim Hk|].
  rewrite Hfetch. unfold call, bind, tryCatch, hostedOutcome, hostedText.
  cbn [OcrData.ParsedResults]. rewrite mapM_parsedText.
  replace (existsb _ (Some first :: others)) with false.
  - unfold bind. rewrite Hblank. reflexivity.
  - symmetry. cbn [existsb orb].
    destruct (existsb _ others) eqn:E; [|reflexivity].
    apply existsb_null in E. contradiction.
Qed.

Lemma ocr_chain_uses_hosted_text_witness :
  OCR_SPACE_API_KEY answeringEnv = Some (js "K1234567")
  /\ extractText answeringEnv (bytesOf "img") (js "a.png")
     = ([CallOcrSpace (js "K1234567") (bytesOf "img") (js "a.png")],
        Ret (js "page one" ++ nl ++ js "page two")).
Proof.
  split; [reflexivity|].
  rewrite (ocr_chain_uses_hosted_text answeringEnv (bytesOf "img")
             (js "a.png") (js "K1234567")
             (OcrData.mkResult (Some (js "page one")))
             [Some (OcrData.mkResult (Some (js "page two")))]);
    try reflexivity; try discriminate.
  intros [H|[]]. discriminate H.
Defined.

(** X15.  The chain calls the hosted service at most once and the local
    engine at most once, the hosted service first; the hosted service is
    called exactly when its credential is configured, and a text that
    comes back without a call to the local engine is never blank. *)
Theorem ocr_chain_calls (env : Env) (buffer : Buffer) (filename : jsstring) :
  match OCR_SPACE_API_KEY env with
  | Some ((_ :: _) as key) =>
      fst (extractText env buffer filename)
      = [CallOcrSpace key buffer filename; CallTesseract buffer]
      \/ (fst (extractText env buffer filename)
          = [CallOcrSpace key buffer filename]
          /\ exists text,
               snd (extractText env buffer filename) = Ret text
               /\ nonBlank text = true)
  | _ => fst (extractText env buffer filename) = [CallTesseract buffer]
  end.
Proof.
  unfold extractText.
  destruct (OCR_SPACE_API_KEY env) as [[|c k]|];
    try (now rewrite tesseractOcr_total).
  unfold call, bind, tryCatch.
  destruct (fetchOcrSpace env (c :: k) buffer filename) as [m|m|data];
    cbn [hostedOutcome]; try (left; now rewrite tesseractOcr_total).
  unfold hostedText.
  destruct data as [[[[|[p|] results]|]]|];
    try (left; cbn; now rewrite tesseractOcr_total).
  cbn [OcrData.ParsedResults]. rewrite mapM_parsedText. unfold bind, ret.
  cbn [app].
  destruct (existsb _ (Some p :: results));
    [left; now rewrite tesseractOcr_total|].
  destruct (nonBlank (joinOpt nl (parsedTexts (Some p :: results)))) eqn:B.
  - right. cbn. split; [reflexivity|]. eexists. split; [reflexivity|exact B].
  - left. cbn. now rewrite tesseractOcr_total.
Qed.

(** ** The PDF extractor, continued *)

(** X16.  [extractTextFromPdf] calls the parser at most once and only on
    a buffer that begins with the signature, and every exception it raises
    carries a message that starts with "PDF parsing failed: ", whether it
    comes from the checks or from the parser. *)
Theorem pdf_extractor_guards_the_parser (env : Env) (buffer : option Buffer) :
  (fst (extractTextFromPdf env buffer) = []
   \/ exists b, buffer = Some b
                /\ firstn 4 b = bytesOf "%PDF"
                /\ fst (extractTextFromPdf env buffer) = [CallPdfParse b])
  /\ match snd (extractTextFromPdf env buffer) with
     | Throw message =>
         exists reason, message = js "PDF parsing failed: " ++ reason
     | Ret result =>
         PdfResult.isScanned result = true /\ PdfResult.text result = []
         \/ PdfResult.isScanned result = false /\ PdfResult.text result <> []
     end.
Proof.
  unfold extractTextFromPdf.
  destruct buffer as [[|b0 b]|];
    try (split; [left; reflexivity | eexists; reflexivity]).
  destruct (startsWith (toStringUtf8 (firstn 4 (b0 :: b))) pdfSignature)
    eqn:Hs; cbn [negb];
    [|split; [left; reflexivity | eexists; reflexivity]].
  apply pdf_header_check in Hs.
  unfold call, bind, tryCatch.
  destruct (pdfParse env (b0 :: b)) as [data|m].
  - destruct (extractedLength data =? 0) eqn:L; cbn [fst snd app ret].
    + split; [right; now exists (b0 :: b)|]. left. now split.
    + split; [right; now exists (b0 :: b)|]. right. split; [reflexivity|].
      cbn [PdfResult.text]. apply N.eqb_neq in L.
      unfold extractedLength, textOf in *.
      destruct data as [[[t|] n]|]; cbn in *; try (now elim L).
      destruct t; [now elim L | discriminate].
  - cbn [fst snd throw app]. split; [right; now exists (b0 :: b)|].
    eexists; reflexivity.
Qed.

(** X17.  A PDF with the signature whose parse yields text is recorded
    with that text and no error, after one call to the parser;
    [textLength] is the length of the parsed text, and the record is
    retained for the aggregated text unless that text is blank. *)
Theorem parsed_pdf_record
    (env : Env) (f : UploadedFile.t) (b : Buffer) (data : option PdfData.t) :
  fileExt env f = js "pdf" ->
  UploadedFile.buffer f = Some b ->
  firstn 4 b = bytesOf "%PDF" ->
  pdfParse env b = Ret data ->
  extractedLength data <> 0 ->
  fileStep env f []
  = ([CallPdfParse b],
     (Part.mk (fileName f) (js "pdf") (textOf data) (fileSize f) None, []))
  /\ FileEntry.textLength (fileEntry (recordOf env f)) = extractedLength data
  /\ retained (recordOf env f) = nonBlank (textOf data).
Proof.
  intros Hext Hbuf Hsig Hparse Hlen.
  assert (Hx : extractTextFromPdf env (UploadedFile.buffer f)
               = ([CallPdfParse b],
                  Ret (PdfResult.mk (textOf data) false (numpagesOf data) None))).
  { rewrite Hbuf. unfold extractTextFromPdf.
    destruct b as [|b0 b]; [discriminate Hsig|].
    apply pdf_header_check in Hsig. rewrite Hsig. cbn [negb].
    unfold call, bind, tryCatch. rewrite Hparse.
    apply N.eqb_neq in Hlen. rewrite Hlen. reflexivity. }
  pose proof (fileStep_pdf env f Hext) as Hstep. rewrite Hx in Hstep.
  cbn [PdfResult.isScanned PdfResult.text PdfResult.info] in Hstep.
  split; [exact Hstep|].
  unfold recordOf, retained. rewrite Hstep. cbn [fst snd Part.text].
  split; [|reflexivity].
  unfold fileEntry, extractedLength, textOf. cbn [FileEntry.textLength Part.text].
  destruct data as [[[t|] n]|]; reflexivity.
Qed.

Lemma parsed_pdf_record_witness :
  fileExt answeringEnv goodPdf = js "pdf"
  /\ extractedLength (Some (PdfData.mk (Some (js "Hello PDF")) (Some 1))) <> 0
  /\ recordOf answeringEnv goodPdf
     = Part.mk (js "doc.PDF") (js "pdf") (js "Hello PDF") 13 None.
Proof.
  assert (E : fileExt answeringEnv goodPdf = js "pdf") by reflexivity.
  assert (L : extractedLength
                (Some (PdfData.mk (Some (js "Hello PDF")) (Some 1))) <> 0)
    by discriminate.
  destruct (parsed_pdf_record answeringEnv goodPdf (bytesOf "%PDF-1.7 body")
              _ E eq_refl eq_refl eq_refl L) as (S & _ & _).
  split; [exact E|]. split; [exact L|].
  unfold recordOf. now rewrite S.
Defined.

(** ** Office files *)

(** X18.  A [docx] file makes one call to mammoth.  Its raw text becomes
    the text of the record, the empty string when mammoth returns none; if
    mammoth raises, the record has no text and keeps the message as its
    error, which the response shows as null when the message is empty. *)
Theorem docx_file_record (env : Env) (f : UploadedFile.t) :
  fileExt env f = js "docx" ->
  stepTrace env f = [CallMammoth (UploadedFile.buffer f)]
  /\ pushedBy env f = []
  /\ match mammothExtractRawText env (UploadedFile.buffer f) with
     | Ret value =>
         Part.text (recordOf env f) = orElse value []
         /\ Part.error (recordOf env f) = None
     | Throw message =>
         Part.text (recordOf env f) = []
         /\ Part.error (recordOf env f) = Some message
         /\ FileEntry.error (fileEntry (recordOf env f))
            = match message with [] => None | _ => Some message end
     end.
Proof.
  intros E. unfold stepTrace, pushedBy, recordOf, fileStep, extractFile.
  rewrite E. change (jseqb (js "docx") (js "pdf")) with false.
  change (jseqb (js "docx") (js "docx")) with true. cbv iota.
  unfold call, bind.
  destruct (mammothExtractRawText env (UploadedFile.buffer f)) as [v|m];
    cbn; repeat split.
  now destruct m.
Qed.

Lemma docx_file_record_witness :
  fileExt answeringEnv docxFile = js "docx"
  /\ Part.text (recordOf answeringEnv docxFile) = js "doc text"
  /\ Part.error (recordOf offlineEnv docxFile)
     = Some (js "Can't find end of central directory").
Proof.
  assert (E : fileExt answeringEnv docxFile = js "docx") by reflexivity.
  assert (E' : fileExt offlineEnv docxFile = js "docx") by reflexivity.
  destruct (docx_file_record answeringEnv docxFile E) as (_ & _ & T & _).
  destruct (docx_file_record offlineEnv docxFile E') as (_ & _ & _ & R & _).
  split; [exact E|]. split; [exact T | exact R].
Defined.

(** ** Files that contribute nothing *)

Lemma filter_retained_skip (xs ys : list Part.t) (p : Part.t) :
  retained p = false ->
  filter retained (xs ++ p :: ys) = filter retained (xs ++ ys).
Proof.
  intros H. rewrite !filter_app. cbn [filter]. now rewrite H.
Qed.

(** X19.  A file whose extension has no branch in the loop (neither a
    document nor an image extension) is recorded with empty text and no
    error, without any call and without an image part; removing such a
    file from the upload does not change the aggregated text. *)
Theorem unsupported_file_is_skipped
    (env : Env) (before after : list UploadedFile.t) (f : UploadedFile.t) :
  isDocumentExt (fileExt env f) = false ->
  isImageExt (fileExt env f) = false ->
  fileStep env f []
  = ([], (Part.mk (fileName f) (fileExt env f) [] (fileSize f) None, []))
  /\ fileEntry (recordOf env f)
     = FileEntry.mk (fileName f) (fileExt env f) (fileSize f) 0 None
  /\ combinedOf (partsOf env (before ++ f :: after))
     = combinedOf (partsOf env (before ++ after)).
Proof.
  intros Hdoc Himg.
  assert (S : fileStep env f []
              = ([], (Part.mk (fileName f) (fileExt env f) [] (fileSize f) None,
                      []))).
  { unfold fileStep, extractFile. rewrite Himg.
    unfold isDocumentExt, documentExts in Hdoc. cbn [map existsb] in Hdoc.
    repeat (apply orb_false_iff in Hdoc as [? Hdoc]).
    repeat match goal with H : jseqb _ _ = false |- _ => rewrite H; clear H end.
    reflexivity. }
  split; [exact S|].
  assert (R : recordOf env f
              = Part.mk (fileName f) (fileExt env f) [] (fileSize f) None)
    by (unfold recordOf; now rewrite S).
  split; [now rewrite R|].
  unfold combinedOf. rewrite !partsOf_map, !map_app. cbn [map].
  rewrite filter_retained_skip; [reflexivity|]. now rewrite R.
Qed.

Lemma unsupported_file_is_skipped_witness :
  isDocumentExt (fileExt offlineEnv unknownFile) = false
  /\ isImageExt (fileExt offlineEnv unknownFile) = false
  /\ combinedOf (partsOf offlineEnv ([helloFile] ++ unknownFile :: [helloFile]))
     = combinedOf (partsOf offlineEnv ([helloFile] ++ [helloFile])).
Proof.
  destruct (unsupported_file_is_skipped offlineEnv [helloFile] [helloFile]
              unknownFile eq_refl eq_refl) as (_ & _ & C).
  split; [reflexivity|]. split; [reflexivity | exact C].
Defined.

(** ** The size of the aggregated text *)

Lemma join_cons_length (sep x : jsstring) (l : list jsstring) :
  (List.length (join sep (x :: l))
   <= List.length x + List.length sep + List.length (join sep l))%nat.
Proof.
  destruct l as [|y l]; cbn [join].
  - cbn [List.length]. lia.
  - rewrite !length_app. lia.
Qed.

Lemma segment_length (p : Part.t) :
  N.of_nat (List.length (segment p)) <= segmentBudget p.
Proof.
  unfold segment, segmentBudget.
  destruct (slice0_prefix 20000 (Part.text p)) as (rest & _ & L).
  rewrite !length_app, !Nat2N.inj_add, L.
  change (N.of_nat (List.length (js "--- "))) with 4.
  change (N.of_nat (List.length (js " ("))) with 2.
  change (N.of_nat (List.length (js ") ---"))) with 5.
  change (N.of_nat (List.length nl)) with 1.
  pose proof (N.le_min_l 20000 (N.of_nat (List.length (Part.text p)))).
  lia.
Qed.

(** X20.  The aggregated text is bounded by the upload: each record
    accounts for at most its name, its extension, twelve characters of
    header, 20,000 characters of text and a separator, however long the
    extracted texts are. *)
Theorem aggregated_text_is_bounded (parts : list Part.t) :
  N.of_nat (List.length (combinedOf parts)) <= contextBudget parts.
Proof.
  unfold combinedOf.
  induction parts as [|p parts IH]; [cbn; lia|].
  cbn [filter contextBudget]. destruct (retained p).
  - cbn [map].
    pose proof (join_cons_length (nl ++ nl) (segment p)
                  (map segment (filter retained parts))) as J.
    pose proof (segment_length p) as S.
    change (List.length (nl ++ nl)) with 2%nat in J. lia.
  - unfold segmentBudget. lia.
Qed.

(** ** Strings in the response *)

(** X21.  A reply with status 200 never carries an empty string where a
    null is meant: its answer is null or a non-empty text, and the error of
    every file entry is null or a non-empty message. *)
Theorem reply_has_no_empty_strings
    (env : Env) (req : Request.t) (trace : list Event) (r : Response.t) :
  askWithFiles env req = (trace, Json200 r) ->
  Response.answer r <> Some []
  /\ Forall (fun e => FileEntry.error e <> Some []) (Response.files r).
Proof.
  intros E.
  assert (F : Forall (fun e => FileEntry.error e <> Some [])
                     (map fileEntry (partsOf env (filesOf req)))).
  { apply Forall_forall. intros e He. apply in_map_iff in He as (p & <- & _).
    unfold fileEntry, orNull. cbn [FileEntry.error].
    destruct (Part.error p) as [[|c s]|]; discriminate. }
  assert (T : forall data, textResp data <> Some []).
  { intros [d|]; [|discriminate]. unfold textResp, orNull.
    destruct (GeminiData.candidates d) as [[|[cand|] cs]|]; try discriminate.
    destruct (GeminiData.content_ cand) as [ct|]; try discriminate.
    destruct (GeminiData.parts ct) as [[|[pt|] ps]|]; try discriminate.
    destruct (GeminiData.text pt) as [[|c s]|]; discriminate. }
  revert E. rewrite askWithFiles_unfold.
  destruct (filesOf req) as [|f rest] eqn:Hf; [discriminate|].
  cbv zeta. rewrite <- Hf in F |- *.
  destruct (GEMINI_API_KEY env) as [[|c k]|];
    try (intros E; injection E as _ <-; split; [discriminate | exact F]).
  destruct (hasContent env (filesOf req)).
  - destruct (axiosPost env _ _) as [data|m]; [|discriminate].
    intros E; injection E as _ <-. split; [apply T | exact F].
  - intros E; injection E as _ <-. split; [discriminate | exact F].
Qed.

Lemma reply_has_no_empty_strings_witness :
  askWithFiles offlineEnv helloRequest = ([], Json200 helloResponse)
  /\ Response.answer helloResponse <> Some []
  /\ Forall (fun e => FileEntry.error e <> Some [])
            (Response.files helloResponse).
Proof.
  assert (E : askWithFiles offlineEnv helloRequest = ([], Json200 helloResponse))
    by reflexivity.
  destruct (reply_has_no_empty_strings _ _ _ _ E) as [A B].
  split; [exact E|]. split; [exact A | exact B].
Defined.
